(** * analyse-entreprise: the valuation pipeline of [placement.py]

    A shallow embedding of the data fetcher's pure part
    ([RecuperateurDonneesAPI]), of the analyzer ([AnalyseurSousEvaluation])
    and of the manual entry ([saisir_donnees_entreprise]), followed by the
    properties of the specification that concern them.

    Modelling choices.
    - A Python [float] is an IEEE 754 binary64 number: Rocq's primitive
      [float], whose operations are the machine's (round to nearest, ties to
      even), so [float('inf')] is [infinity] and comparisons with a NaN are
      false, as in Python.
    - A Python [int] is a [Z]; it is converted with [float_of_int] where the
      source mixes it with a float.
    - A Python [str] is a [string] of ASCII characters.
    - An exception is a value of the error monad [exc]; [try]/[except] is
      [try_except].
    - A [dict] is an association list searched from the left. *)

From Stdlib Require Import ZArith Floats String Ascii List Bool Lia.
Import ListNotations.
Set Warnings "-inexact-float".

(* ================================================================= *)
(** * Python runtime *)

Module Py.

Inductive exception : Set :=
| ZeroDivisionError
| ValueError
| EOFError.

(** A computation returns a value or raises. *)
Inductive exc (A : Type) : Type :=
| Ret (a : A)
| Raise (e : exception).
Arguments Ret {A} a.
Arguments Raise {A} e.

Definition bind {A B : Type} (c : exc A) (k : A -> exc B) : exc B :=
  match c with
  | Ret a => k a
  | Raise e => Raise e
  end.

(** [try: body  except: handler] with a bare or catch-all [except]. *)
Definition try_except {A : Type} (body : exc A) (handler : exc A) : exc A :=
  match body with
  | Ret a => Ret a
  | Raise _ => handler
  end.

(** [c] returns, and what it returns satisfies [P]. *)
Definition wp {A : Type} (c : exc A) (P : A -> Prop) : Prop :=
  match c with
  | Ret a => P a
  | Raise _ => False
  end.

(** Python's [x / y] on floats: the IEEE quotient, except that a zero
    divisor (of either sign) raises. *)
Definition truediv (x y : float) : exc float :=
  if (y =? 0)%float then Raise ZeroDivisionError else Ret (x / y)%float.

(** The float of a Python [int]; exact for [|z| < 2^53], which covers every
    integer literal and every score of the program. *)
Definition float_of_int (z : Z) : float :=
  match z with
  | Z0 => 0%float
  | Zpos _ => of_uint63 (Uint63.of_Z z)
  | Zneg p => (- of_uint63 (Uint63.of_Z (Zpos p)))%float
  end.

(** Python's [<=], [<], [>=], [>] and [==] on floats. *)
Definition fle (x y : float) : bool := (x <=? y)%float.
Definition flt (x y : float) : bool := (x <? y)%float.
Definition fge (x y : float) : bool := (y <=? x)%float.
Definition fgt (x y : float) : bool := (y <? x)%float.
Definition feq (x y : float) : bool := (x =? y)%float.

(** [str.lower()] and [str.upper()] on ASCII text. *)
Definition lower_char (c : ascii) : ascii :=
  let n := nat_of_ascii c in
  if (65 <=? n)%nat && (n <=? 90)%nat then ascii_of_nat (n + 32) else c.

Definition upper_char (c : ascii) : ascii :=
  let n := nat_of_ascii c in
  if (97 <=? n)%nat && (n <=? 122)%nat then ascii_of_nat (n - 32) else c.

Fixpoint map_string (f : ascii -> ascii) (s : string) : string :=
  match s with
  | EmptyString => EmptyString
  | String c s' => String (f c) (map_string f s')
  end.

Definition lower : string -> string := map_string lower_char.
Definition upper : string -> string := map_string upper_char.

(** Truth value of a [str]: false exactly for the empty string. *)
Definition truthy (s : string) : bool :=
  match s with
  | EmptyString => false
  | String _ _ => true
  end.

(** A [dict] with [str] keys, and [d.get(key, default)]. *)
Definition dict (V : Type) : Type := list (string * V).

Fixpoint lookup {V : Type} (key : string) (d : dict V) : option V :=
  match d with
  | [] => None
  | (k, v) :: d' => if String.eqb key k then Some v else lookup key d'
  end.

Definition get {V : Type} (d : dict V) (key : string) (default : V) : V :=
  match lookup key d with
  | Some v => v
  | None => default
  end.

End Py.

Import Py.

Declare Scope exc_scope.
Delimit Scope exc_scope with exc.
Notation "x <- c ;; k" := (bind c (fun x => k))
  (at level 61, c at next level, right associativity) : exc_scope.

(* ================================================================= *)
(** * Data model *)

(** The dataclass [DonneesEntreprise]. *)
Record DonneesEntreprise : Set := {
  nom : string;
  symbole : string;
  prix_action : float;
  benefice_par_action : float;
  valeur_comptable_par_action : float;
  revenus_actuels : float;
  revenus_annee_precedente : float;
  dette_totale : float;
  capitaux_propres : float;
  croissance_benefices_prevue : float;
  secteur : string;
  capitalisation_boursiere : float
}.

(* ================================================================= *)
(** * The analyzer: class [AnalyseurSousEvaluation] *)

Module Analyseur.

Local Open Scope float_scope.
Local Open Scope exc_scope.

(** One entry of [references_secteur]. *)
Record References : Set := {
  pe_moyen : float;
  pb_moyen : float;
  croissance_moyenne : float
}.

Definition references_defaut : References :=
  {| pe_moyen := 18; pb_moyen := 2.8; croissance_moyenne := 10 |}.

Definition references_secteur : dict References :=
  [ ("technologie"%string,
      {| pe_moyen := 25; pb_moyen := 4.5; croissance_moyenne := 15 |});
    ("finance"%string,
      {| pe_moyen := 12; pb_moyen := 1.2; croissance_moyenne := 8 |});
    ("sante"%string,
      {| pe_moyen := 18; pb_moyen := 3.0; croissance_moyenne := 12 |});
    ("industrie"%string,
      {| pe_moyen := 16; pb_moyen := 2.5; croissance_moyenne := 6 |});
    ("consommation"%string,
      {| pe_moyen := 20; pb_moyen := 3.5; croissance_moyenne := 10 |});
    ("energie"%string,
      {| pe_moyen := 14; pb_moyen := 1.8; croissance_moyenne := 5 |});
    ("defaut"%string, references_defaut) ].

(** [float('inf')]. *)
Definition inf : float := infinity.

(** ** Ratios *)

Definition calculer_ratio_pe (donnees : DonneesEntreprise) : exc float :=
  if fle (benefice_par_action donnees) 0 then Ret inf
  else truediv (prix_action donnees) (benefice_par_action donnees).

Definition calculer_ratio_pb (donnees : DonneesEntreprise) : exc float :=
  if fle (valeur_comptable_par_action donnees) 0 then Ret inf
  else truediv (prix_action donnees) (valeur_comptable_par_action donnees).

Definition calculer_ratio_peg (donnees : DonneesEntreprise) : exc float :=
  pe_ratio <- calculer_ratio_pe donnees ;;
  if feq pe_ratio inf || fle (croissance_benefices_prevue donnees) 0
  then Ret inf
  else truediv pe_ratio (croissance_benefices_prevue donnees).

Definition calculer_croissance_revenus (donnees : DonneesEntreprise)
  : exc float :=
  if fle (revenus_annee_precedente donnees) 0 then Ret 0
  else
    q <- truediv (revenus_actuels donnees - revenus_annee_precedente donnees)
                 (revenus_annee_precedente donnees) ;;
    Ret (q * 100).

Definition calculer_ratio_endettement (donnees : DonneesEntreprise)
  : exc float :=
  if fle (capitaux_propres donnees) 0 then Ret inf
  else truediv (dette_totale donnees) (capitaux_propres donnees).

Definition obtenir_references (secteur : string) : References :=
  let secteur_key := lower secteur in
  get references_secteur secteur_key
      (get references_secteur "defaut" references_defaut).

(** ** Scoring ladders

    Each ladder returns the score, a Python [int], and the explanation;
    the explanation is kept as the message chosen and the numbers the
    f-string prints. *)

Inductive explication : Set :=
| PE_infini
| PE_tres_faible (pe ref : float)
| PE_faible (pe ref : float)
| PE_normal (pe ref : float)
| PE_eleve (pe ref : float)
| PE_tres_eleve (pe ref : float)
| PB_tres_faible (pb ref : float)
| PB_faible (pb ref : float)
| PB_normal (pb ref : float)
| PB_eleve (pb ref : float)
| PEG_non_calculable
| PEG_excellent (peg : float)
| PEG_bon (peg : float)
| PEG_acceptable (peg : float)
| PEG_eleve (peg : float)
| PEG_tres_eleve (peg : float)
| Croissance_excellente (c ref : float)
| Croissance_bonne (c ref : float)
| Croissance_moderee (c ref : float)
| Croissance_negative (c : float)
| Endettement_critique
| Endettement_faible (r : float)
| Endettement_modere (r : float)
| Endettement_eleve (r : float)
| Endettement_tres_eleve (r : float).

Definition evaluer_ratio_pe (pe_ratio : float) (references : References)
  : Z * explication :=
  let pe_reference := pe_moyen references in
  if feq pe_ratio inf then (0%Z, PE_infini)
  else if flt pe_ratio (pe_reference * 0.7)
  then (90%Z, PE_tres_faible pe_ratio pe_reference)
  else if flt pe_ratio (pe_reference * 0.85)
  then (70%Z, PE_faible pe_ratio pe_reference)
  else if flt pe_ratio (pe_reference * 1.15)
  then (50%Z, PE_normal pe_ratio pe_reference)
  else if flt pe_ratio (pe_reference * 1.5)
  then (30%Z, PE_eleve pe_ratio pe_reference)
  else (10%Z, PE_tres_eleve pe_ratio pe_reference).

Definition evaluer_ratio_pb (pb_ratio : float) (references : References)
  : Z * explication :=
  let pb_reference := pb_moyen references in
  if flt pb_ratio (pb_reference * 0.6)
  then (85%Z, PB_tres_faible pb_ratio pb_reference)
  else if flt pb_ratio (pb_reference * 0.8)
  then (65%Z, PB_faible pb_ratio pb_reference)
  else if flt pb_ratio (pb_reference * 1.2)
  then (50%Z, PB_normal pb_ratio pb_reference)
  else (25%Z, PB_eleve pb_ratio pb_reference).

Definition evaluer_ratio_peg (peg_ratio : float) : Z * explication :=
  if feq peg_ratio inf then (20%Z, PEG_non_calculable)
  else if flt peg_ratio 0.5 then (95%Z, PEG_excellent peg_ratio)
  else if flt peg_ratio 1.0 then (80%Z, PEG_bon peg_ratio)
  else if flt peg_ratio 1.5 then (50%Z, PEG_acceptable peg_ratio)
  else if flt peg_ratio 2.0 then (30%Z, PEG_eleve peg_ratio)
  else (10%Z, PEG_tres_eleve peg_ratio).

Definition evaluer_croissance (croissance_revenus : float)
                              (references : References)
  : Z * explication :=
  let croissance_ref := croissance_moyenne references in
  if fgt croissance_revenus (croissance_ref * 1.5)
  then (80%Z, Croissance_excellente croissance_revenus croissance_ref)
  else if fgt croissance_revenus croissance_ref
  then (65%Z, Croissance_bonne croissance_revenus croissance_ref)
  else if fgt croissance_revenus 0
  then (45%Z, Croissance_moderee croissance_revenus croissance_ref)
  else (20%Z, Croissance_negative croissance_revenus).

Definition evaluer_endettement (ratio_endettement : float)
  : Z * explication :=
  if feq ratio_endettement inf then (0%Z, Endettement_critique)
  else if flt ratio_endettement 0.3
  then (80%Z, Endettement_faible ratio_endettement)
  else if flt ratio_endettement 0.6
  then (60%Z, Endettement_modere ratio_endettement)
  else if flt ratio_endettement 1.0
  then (40%Z, Endettement_eleve ratio_endettement)
  else (20%Z, Endettement_tres_eleve ratio_endettement).

(** ** Weighted score and verdict *)

(** The dict [poids]. *)
Definition poids_pe : float := 0.25.
Definition poids_pb : float := 0.20.
Definition poids_peg : float := 0.25.
Definition poids_croissance : float := 0.20.
Definition poids_endettement : float := 0.10.

(** The expression bound to [score_final]: int-by-float products, summed
    from the left. *)
Definition score_pondere
    (score_pe score_pb score_peg score_croissance score_endettement : Z)
  : float :=
  float_of_int score_pe * poids_pe
  + float_of_int score_pb * poids_pb
  + float_of_int score_peg * poids_peg
  + float_of_int score_croissance * poids_croissance
  + float_of_int score_endettement * poids_endettement.

Inductive Conclusion : Set :=
| FORTEMENT_SOUS_EVALUEE
| SOUS_EVALUEE
| VALORISATION_EQUITABLE
| POSSIBLEMENT_SUREVALUEE
| SUREVALUEE.

Definition texte_conclusion (c : Conclusion) : string :=
  match c with
  | FORTEMENT_SOUS_EVALUEE => "FORTEMENT SOUS-ÉVALUÉE 🚀"
  | SOUS_EVALUEE => "SOUS-ÉVALUÉE ✅"
  | VALORISATION_EQUITABLE => "VALORISATION ÉQUITABLE ⚖️"
  | POSSIBLEMENT_SUREVALUEE => "POSSIBLEMENT SURÉVALUÉE ⚠️"
  | SUREVALUEE => "SURÉVALUÉE ❌"
  end.

Definition recommandation_de (c : Conclusion) : string :=
  match c with
  | FORTEMENT_SOUS_EVALUEE => "Achat fortement recommandé"
  | SOUS_EVALUEE => "Achat recommandé"
  | VALORISATION_EQUITABLE => "Tenir ou analyser davantage"
  | POSSIBLEMENT_SUREVALUEE => "Éviter ou vendre"
  | SUREVALUEE => "Vente recommandée"
  end.

(** The [if]/[elif] chain on [score_final]. *)
Definition conclure (score_final : float) : Conclusion :=
  if fge score_final 75 then FORTEMENT_SOUS_EVALUEE
  else if fge score_final 60 then SOUS_EVALUEE
  else if fge score_final 40 then VALORISATION_EQUITABLE
  else if fge score_final 25 then POSSIBLEMENT_SUREVALUEE
  else SUREVALUEE.

(** The dict returned by [analyser_entreprise]: its ["ratios"] and
    ["scores"] entries, then the whole of it, together with the five
    explanations that the function prints and does not return. *)
Record Ratios : Set := {
  r_pe : float;
  r_pb : float;
  r_peg : float;
  r_croissance_revenus : float;
  r_ratio_endettement : float
}.

Record Scores : Set := {
  s_pe : Z;
  s_pb : Z;
  s_peg : Z;
  s_croissance : Z;
  s_endettement : Z;
  s_final : float
}.

Record Resultat : Set := {
  entreprise : string;
  res_secteur : string;
  ratios : Ratios;
  scores : Scores;
  explications : list explication;
  conclusion : Conclusion;
  recommandation : string
}.

Definition analyser_entreprise (donnees : DonneesEntreprise)
  : exc Resultat :=
  pe_ratio <- calculer_ratio_pe donnees ;;
  pb_ratio <- calculer_ratio_pb donnees ;;
  peg_ratio <- calculer_ratio_peg donnees ;;
  croissance_revenus <- calculer_croissance_revenus donnees ;;
  ratio_endettement <- calculer_ratio_endettement donnees ;;
  let references := obtenir_references (secteur donnees) in
  let '(score_pe, explication_pe) := evaluer_ratio_pe pe_ratio references in
  let '(score_pb, explication_pb) := evaluer_ratio_pb pb_ratio references in
  let '(score_peg, explication_peg) := evaluer_ratio_peg peg_ratio in
  let '(score_croissance, explication_croissance) :=
    evaluer_croissance croissance_revenus references in
  let '(score_endettement, explication_endettement) :=
    evaluer_endettement ratio_endettement in
  let score_final :=
    score_pondere score_pe score_pb score_peg score_croissance
                  score_endettement in
  let conclusion := conclure score_final in
  Ret {| entreprise := nom donnees;
         res_secteur := secteur donnees;
         ratios := {| r_pe := pe_ratio; r_pb := pb_ratio; r_peg := peg_ratio;
                      r_croissance_revenus := croissance_revenus;
                      r_ratio_endettement := ratio_endettement |};
         scores := {| s_pe := score_pe; s_pb := score_pb;
                      s_peg := score_peg;
                      s_croissance := score_croissance;
                      s_endettement := score_endettement;
                      s_final := score_final |};
         explications := [explication_pe; explication_pb; explication_peg;
                          explication_croissance; explication_endettement];
         conclusion := conclusion;
         recommandation := recommandation_de conclusion |}.

(** The record built in [exemple_analyse]. *)
Definition entreprise_sous_evaluee : DonneesEntreprise :=
  {| nom := "ValueCorp SA";
     symbole := "VCORP";
     prix_action := 25.0;
     benefice_par_action := 3.50;
     valeur_comptable_par_action := 18.0;
     revenus_actuels := float_of_int 1200;
     revenus_annee_precedente := float_of_int 1000;
     dette_totale := float_of_int 300;
     capitaux_propres := float_of_int 800;
     croissance_benefices_prevue := 15.0;
     secteur := "industrie";
     capitalisation_boursiere := float_of_int 500 |}.

End Analyseur.

Import Analyseur.

(* ================================================================= *)
(** * The builtin [float] on text *)

(** Python's [float(s)] for an ASCII [str]: surrounding white space is
    dropped, then an optional sign, then [inf], [infinity] or [nan] in any
    case, or a decimal number with optional fraction and exponent, digits
    optionally grouped by single underscores.  The value is rounded to the
    nearest binary64 number, ties to even.  Anything else raises
    [ValueError]. *)
Module PyBuiltin.

Definition is_space (c : ascii) : bool :=
  let n := nat_of_ascii c in
  ((9 <=? n) && (n <=? 13) || (28 <=? n) && (n <=? 32))%nat.

Definition is_digit (c : ascii) : bool :=
  let n := nat_of_ascii c in ((48 <=? n) && (n <=? 57))%nat.

Definition digit_value (c : ascii) : Z := Z.of_nat (nat_of_ascii c - 48).

Fixpoint lstrip (s : list ascii) : list ascii :=
  match s with
  | c :: s' => if is_space c then lstrip s' else s
  | [] => []
  end.

Definition strip (s : list ascii) : list ascii :=
  rev (lstrip (rev (lstrip s))).

(** The rest of a [digitpart]: digits, each optionally preceded by one
    underscore.  [acc] is the number read so far, [n] the count of
    digits. *)
Fixpoint digitpart_tail (s : list ascii) (acc n : Z) : Z * Z * list ascii :=
  match s with
  | c :: s' =>
      if is_digit c then digitpart_tail s' (10 * acc + digit_value c) (n + 1)
      else if Ascii.eqb c "_" then
        match s' with
        | d :: s'' =>
            if is_digit d
            then digitpart_tail s'' (10 * acc + digit_value d) (n + 1)
            else (acc, n, s)
        | [] => (acc, n, s)
        end
      else (acc, n, s)
  | [] => (acc, n, [])
  end%Z.

Definition digitpart (s : list ascii) (acc : Z)
  : option (Z * Z * list ascii) :=
  match s with
  | c :: s' =>
      if is_digit c
      then Some (digitpart_tail s' (10 * acc + digit_value c) 1)
      else None
  | [] => None
  end%Z.

(** [number ::= [digitpart] "." digitpart | digitpart ["."]]: the digits
    read as one integer, the count of those after the point, the rest. *)
Definition number (s : list ascii) : option (Z * Z * list ascii) :=
  match digitpart s 0 with
  | Some (ip, _, rest) =>
      match rest with
      | "."%char :: rest' =>
          match digitpart rest' ip with
          | Some r => Some r
          | None => Some (ip, 0%Z, rest')
          end
      | _ => Some (ip, 0%Z, rest)
      end
  | None =>
      match s with
      | "."%char :: rest' => digitpart rest' 0
      | _ => None
      end
  end.

Definition sign (s : list ascii) : bool * list ascii :=
  match s with
  | "-"%char :: s' => (true, s')
  | "+"%char :: s' => (false, s')
  | _ => (false, s)
  end.

(** [exponent ::= ("e" | "E") [sign] digitpart], or nothing. *)
Definition exponent (s : list ascii) : option (Z * list ascii) :=
  match s with
  | c :: s' =>
      if Ascii.eqb c "e" || Ascii.eqb c "E" then
        let '(neg, s'') := sign s' in
        match digitpart s'' 0 with
        | Some (e, _, rest) => Some (if neg then (- e)%Z else e, rest)
        | None => None
        end
      else Some (0%Z, s)
  | [] => Some (0%Z, [])
  end.

(** The binary64 number nearest to [m * 10^e10], signed. *)
Definition round_decimal (neg : bool) (m e10 : Z) : float :=
  SF2Prim
    match m with
    | Zpos p =>
        if (0 <=? e10)%Z
        then binary_normalize prec emax
               (if neg then Z.opp (m * 10 ^ e10) else m * 10 ^ e10)%Z 0 neg
        else
          match (10 ^ (- e10))%Z with
          | Zpos q =>
              SFdiv prec emax (S754_finite neg p 0) (S754_finite false q 0)
          | _ => S754_nan
          end
    | _ => S754_zero neg
    end.

Definition keyword (s : list ascii) : option float :=
  let w := string_of_list_ascii (map lower_char s) in
  if String.eqb w "inf" || String.eqb w "infinity" then Some infinity
  else if String.eqb w "nan" then Some nan
  else None.

Definition float_ (s : string) : exc float :=
  let '(neg, body) := sign (strip (list_ascii_of_string s)) in
  match keyword body with
  | Some f => Ret (if neg then (- f)%float else f)
  | None =>
      match number body with
      | Some (m, nfrac, rest) =>
          match exponent rest with
          | Some (e, []) => Ret (round_decimal neg m (e - nfrac))
          | _ => Raise ValueError
          end
      | None => Raise ValueError
      end
  end.

End PyBuiltin.

(* ================================================================= *)
(** * The data fetcher: class [RecuperateurDonneesAPI] *)

Module Recuperateur.

Local Open Scope string_scope.
Local Open Scope exc_scope.

(** What the four remote calls returned: [rechercher_symbole],
    [obtenir_apercu_entreprise], and the [annualReports] lists of
    [obtenir_revenus_annuels] and [obtenir_bilan]; [None] is the
    source's [None].  The provider sends every field as text. *)
Record Reponses : Type := {
  symbole_trouve : option string;
  apercu_recu : option (dict string);
  revenus_recus : option (list (dict string));
  bilan_recu : option (list (dict string))
}.

Definition secteurs_mapping : dict string :=
  [ ("TECHNOLOGY", "technologie");
    ("FINANCIAL SERVICES", "finance");
    ("HEALTHCARE", "sante");
    ("INDUSTRIALS", "industrie");
    ("CONSUMER DISCRETIONARY", "consommation");
    ("CONSUMER STAPLES", "consommation");
    ("ENERGY", "energie");
    ("UTILITIES", "energie");
    ("MATERIALS", "industrie");
    ("REAL ESTATE", "finance");
    ("COMMUNICATION SERVICES", "technologie") ]%string.

Definition detecter_secteur (secteur_api : string) : string :=
  let secteur_upper := upper secteur_api in
  get secteurs_mapping secteur_upper "defaut"%string.

(** [1_000_000], the divisor that rescales to millions. *)
Definition un_million : float := float_of_int 1000000.

Section AvecFloat.

(** The builtin [float] applied to a [str]. *)
Variable float_ : string -> exc float.

Definition convertir_valeur (valeur_str : string) : exc float :=
  if negb (truthy valeur_str)
     || String.eqb valeur_str "None" || String.eqb valeur_str "-"
  then Ret 0%float
  else try_except (float_ valeur_str) (Ret 0%float).

(** The body of the [try] block of [recuperer_donnees_entreprise]. *)
Definition extraire (nom_entreprise symbole : string)
    (apercu : dict string)
    (revenus_data bilan_data : option (list (dict string)))
  : exc DonneesEntreprise :=
  let nom := get apercu "Name" nom_entreprise in
  prix_moyen <- convertir_valeur (get apercu "50DayMovingAverage" "0") ;;
  prix_action <-
    (if feq prix_moyen 0
     then convertir_valeur (get apercu "PreviousClose" "100")
     else Ret prix_moyen) ;;
  benefice_par_action <- convertir_valeur (get apercu "EPS" "0") ;;
  valeur_comptable_par_action <-
    convertir_valeur (get apercu "BookValue" "0") ;;
  capitalisation <-
    convertir_valeur (get apercu "MarketCapitalization" "0") ;;
  capitalisation_boursiere <- truediv capitalisation un_million ;;
  pe_ratio <- convertir_valeur (get apercu "PERatio" "0") ;;
  let secteur := detecter_secteur (get apercu "Sector" "") in
  peg_ratio <- convertir_valeur (get apercu "PEGRatio" "0") ;;
  croissance_benefices_prevue <-
    (if fgt peg_ratio 0 && fgt pe_ratio 0
     then if negb (feq peg_ratio 0)
          then truediv pe_ratio peg_ratio
          else Ret 10.0%float
     else Ret 10.0%float) ;;
  revenus <-
    match revenus_data with
    | Some (rapport0 :: rapport1 :: _) =>
        r0 <- convertir_valeur (get rapport0 "totalRevenue" "0") ;;
        revenus_actuels <- truediv r0 un_million ;;
        r1 <- convertir_valeur (get rapport1 "totalRevenue" "0") ;;
        revenus_annee_precedente <- truediv r1 un_million ;;
        Ret (revenus_actuels, revenus_annee_precedente)
    | _ => Ret (0%float, 0%float)
    end ;;
  bilan <-
    match bilan_data with
    | Some (dernier_bilan :: _) =>
        d0 <- convertir_valeur (get dernier_bilan "totalDebt" "0") ;;
        dette_totale <- truediv d0 un_million ;;
        dette_totale <-
          (if feq dette_totale 0
           then
             d1 <- convertir_valeur
                     (get dernier_bilan "longTermDebt" "0") ;;
             truediv d1 un_million
           else Ret dette_totale) ;;
        c0 <- convertir_valeur
                (get dernier_bilan "totalShareholderEquity" "0") ;;
        capitaux_propres <- truediv c0 un_million ;;
        Ret (dette_totale, capitaux_propres)
    | _ => Ret (0%float, 0%float)
    end ;;
  Ret {| nom := nom;
         symbole := symbole;
         prix_action := prix_action;
         benefice_par_action := benefice_par_action;
         valeur_comptable_par_action := valeur_comptable_par_action;
         revenus_actuels := fst revenus;
         revenus_annee_precedente := snd revenus;
         dette_totale := fst bilan;
         capitaux_propres := snd bilan;
         croissance_benefices_prevue := croissance_benefices_prevue;
         secteur := secteur;
         capitalisation_boursiere := capitalisation_boursiere |}.

(** [recuperer_donnees_entreprise], given what the remote calls
    returned. *)
Definition recuperer_donnees_entreprise (nom_entreprise : string)
    (reponses : Reponses) : option DonneesEntreprise :=
  match symbole_trouve reponses with
  | None => None
  | Some symbole =>
      if negb (truthy symbole) then None
      else
        match apercu_recu reponses with
        | None | Some [] => None
        | Some apercu =>
            match extraire nom_entreprise symbole apercu
                    (revenus_recus reponses) (bilan_recu reponses) with
            | Ret donnees => Some donnees
            | Raise _ => None
            end
        end
  end.

End AvecFloat.

End Recuperateur.

(* ================================================================= *)
(** * Manual entry: [saisir_donnees_entreprise] *)

Module Saisie.

(** A computation that reads lines of standard input: it consumes a prefix
    of the lines typed and returns a value, or raises. *)
Definition saisie (A : Type) : Type := list string -> exc (A * list string).

Definition ret {A : Type} (a : A) : saisie A := fun lignes => Ret (a, lignes).

Definition puis {A B : Type} (c : saisie A) (k : A -> saisie B) : saisie B :=
  fun lignes =>
    match c lignes with
    | Ret (a, reste) => k a reste
    | Raise e => Raise e
    end.

(** [input(...)]: the next line, [EOFError] when there is none. *)
Definition input : saisie string :=
  fun lignes =>
    match lignes with
    | ligne :: reste => Ret (ligne, reste)
    | [] => Raise EOFError
    end.

Definition lever {A : Type} (c : exc A) : saisie A :=
  fun lignes =>
    match c with
    | Ret a => Ret (a, lignes)
    | Raise e => Raise e
    end.

Section AvecFloat.

Variable float_ : string -> exc float.

(** [float(input(...))]. *)
Definition float_input : saisie float :=
  puis input (fun ligne => lever (float_ ligne)).

Definition saisir_donnees_entreprise : saisie DonneesEntreprise :=
  puis input (fun nom =>
  puis input (fun symbole =>
  puis float_input (fun prix_action =>
  puis float_input (fun benefice_par_action =>
  puis float_input (fun valeur_comptable_par_action =>
  puis float_input (fun revenus_actuels =>
  puis float_input (fun revenus_annee_precedente =>
  puis float_input (fun dette_totale =>
  puis float_input (fun capitaux_propres =>
  puis float_input (fun croissance_benefices_prevue =>
  puis float_input (fun capitalisation_boursiere =>
  puis input (fun secteur_saisi =>
  let secteur := lower secteur_saisi in
  ret {| nom := nom;
         symbole := symbole;
         prix_action := prix_action;
         benefice_par_action := benefice_par_action;
         valeur_comptable_par_action := valeur_comptable_par_action;
         revenus_actuels := revenus_actuels;
         revenus_annee_precedente := revenus_annee_precedente;
         dette_totale := dette_totale;
         capitaux_propres := capitaux_propres;
         croissance_benefices_prevue := croissance_benefices_prevue;
         secteur := secteur;
         capitalisation_boursiere := capitalisation_boursiere |}
  )))))))))))).

End AvecFloat.

End Saisie.

(* ================================================================= *)
(** * The ratios as the specification defines them *)

(** Section 4.2 of the specification, read literally.  "Undefined" is the
    value [indefini]; the analyzer represents it by [float('inf')]. *)
Module Spec.

Local Open Scope float_scope.

Definition indefini : float := Analyseur.inf.

Definition est_indefini (x : float) : bool := feq x indefini.

(** P/E = price / EPS; undefined if EPS <= 0. *)
Definition pe (prix eps : float) : float :=
  if fle eps 0 then indefini else prix / eps.

(** P/B = price / book-value-per-share; undefined if book value <= 0. *)
Definition pb (prix valeur_comptable : float) : float :=
  if fle valeur_comptable 0 then indefini else prix / valeur_comptable.

(** PEG = P/E / projected-growth; undefined if P/E undefined or
    growth <= 0. *)
Definition peg (pe croissance : float) : float :=
  if est_indefini pe || fle croissance 0 then indefini
  else pe / croissance.

(** Revenue growth % = (current - prior) / prior * 100; 0 if prior <= 0. *)
Definition croissance_revenus (actuels precedents : float) : float :=
  if fle precedents 0 then 0 else (actuels - precedents) / precedents * 100.

(** Debt/equity = total-debt / equity; undefined if equity <= 0. *)
Definition endettement (dette capitaux : float) : float :=
  if fle capitaux 0 then indefini else dette / capitaux.

(** The weights of section 3, in hundredths. *)
Definition poids_centiemes : list Z := [25; 20; 25; 20; 10]%Z.

End Spec.

(* ================================================================= *)
(** * Partial sums of the weighted score

    The floats that the five-term sum of [score_pondere] can reach when
    every score is an integer of [0, 100], stage by stage, each stage kept
    as a search tree. *)

Module Atteignables.

Local Open Scope float_scope.

Inductive arbre : Set :=
| Feuille
| Noeud (g : arbre) (x : float) (d : arbre).

Fixpoint appartient (x : float) (t : arbre) : bool :=
  match t with
  | Feuille => false
  | Noeud g y d =>
      if Leibniz.eqb x y then true
      else if x <? y then appartient x g else appartient x d
  end.

Fixpoint elements (t : arbre) : list float :=
  match t with
  | Feuille => []
  | Noeud g x d => elements g ++ x :: elements d
  end.

(** Merge of two increasing lists, equal heads kept once. *)
Fixpoint fusion (l1 : list float) : list float -> list float :=
  fix fusion_l1 (l2 : list float) : list float :=
    match l1, l2 with
    | [], _ => l2
    | _, [] => l1
    | x :: l1', y :: l2' =>
        if x <? y then x :: fusion l1' l2
        else if y <? x then y :: fusion_l1 l2'
        else x :: fusion l1' l2'
    end.

Fixpoint fusion_paires (ls : list (list float)) : list (list float) :=
  match ls with
  | a :: b :: r => fusion a b :: fusion_paires r
  | _ => ls
  end.

Fixpoint fusion_tout (n : nat) (ls : list (list float)) : list float :=
  match n with
  | O => concat ls
  | S n' =>
      match ls with
      | [] => []
      | [l] => l
      | _ => fusion_tout n' (fusion_paires ls)
      end
  end.

Fixpoint sans_doublons (l : list float) : list float :=
  match l with
  | x :: (y :: _) as l' =>
      if Leibniz.eqb x y then sans_doublons l' else x :: sans_doublons l'
  | _ => l
  end.

(** A balanced tree of the first [n] elements of [l], and the rest. *)
Fixpoint construire (h n : nat) (l : list float) : arbre * list float :=
  match h with
  | O => (Feuille, l)
  | S h' =>
      match n with
      | O => (Feuille, l)
      | _ =>
          let n1 := Nat.div2 n in
          let '(g, l1) := construire h' n1 l in
          match l1 with
          | x :: l2 =>
              let '(d, l3) := construire h' (n - n1 - 1) l2 in
              (Noeud g x d, l3)
          | [] => (g, [])
          end
      end
  end.

Definition ensemble (ls : list (list float)) : arbre :=
  let l := sans_doublons (fusion_tout 64 ls) in
  fst (construire 64 (length l) l).

(** The integers of [0, 100]. *)
Definition scores_possibles : list Z := map Z.of_nat (seq 0 101).

Definition terme (w : float) (s : Z) : float := float_of_int s * w.

Definition etape (w : float) (t : arbre) : arbre :=
  ensemble
    (map (fun a => map (fun s => a + terme w s) scores_possibles)
         (elements t)).

(** Every sum of an element of [src] and a term of weight [w] is in
    [dst]. *)
Definition clos (w : float) (src dst : arbre) : bool :=
  forallb
    (fun a =>
       forallb (fun s => appartient (a + terme w s) dst) scores_possibles)
    (elements src).

Definition sommes_1 : arbre := Eval vm_compute in
  ensemble [map (terme poids_pe) scores_possibles].
Definition sommes_2 : arbre := Eval vm_compute in etape poids_pb sommes_1.
Definition sommes_3 : arbre := Eval vm_compute in etape poids_peg sommes_2.
Definition sommes_4 : arbre := Eval vm_compute in
  etape poids_croissance sommes_3.
Definition sommes_5 : arbre := Eval vm_compute in
  etape poids_endettement sommes_4.

End Atteignables.

(* ================================================================= *)
(** * Signs of the numeric fields *)

Module Signes.

Import Recuperateur Saisie.
Local Open Scope string_scope.

(** Price, EPS, book value, both revenues, debt, equity and market
    capitalization are all [>= 0]. *)
Definition champs_positifs (d : DonneesEntreprise) : bool :=
  fle 0 (prix_action d)
  && fle 0 (benefice_par_action d)
  && fle 0 (valeur_comptable_par_action d)
  && fle 0 (revenus_actuels d)
  && fle 0 (revenus_annee_precedente d)
  && fle 0 (dette_totale d)
  && fle 0 (capitaux_propres d)
  && fle 0 (capitalisation_boursiere d).

Section AvecFloat.

Variable float_ : string -> exc float.

(** The number [convertir_valeur] makes of a text. *)
Definition valeur (texte : string) : float :=
  match convertir_valeur float_ texte with
  | Ret v => v
  | Raise _ => 0%float
  end.

(** The text the fetcher reads under [cle], once converted, is [>= 0]. *)
Definition champ_positif (d : dict string) (cle defaut : string) : bool :=
  fle 0 (valeur (get d cle defaut)).

(** Every number the fetcher reads for a field other than the growth rate
    is [>= 0]. *)
Definition sources_positives (reponses : Reponses) : bool :=
  match apercu_recu reponses with
  | Some apercu =>
      champ_positif apercu "50DayMovingAverage" "0"
      && champ_positif apercu "PreviousClose" "100"
      && champ_positif apercu "EPS" "0"
      && champ_positif apercu "BookValue" "0"
      && champ_positif apercu "MarketCapitalization" "0"
  | None => true
  end
  && match revenus_recus reponses with
     | Some (rapport0 :: rapport1 :: _) =>
         champ_positif rapport0 "totalRevenue" "0"
         && champ_positif rapport1 "totalRevenue" "0"
     | _ => true
     end
  && match bilan_recu reponses with
     | Some (dernier_bilan :: _) =>
         champ_positif dernier_bilan "totalDebt" "0"
         && champ_positif dernier_bilan "longTermDebt" "0"
         && champ_positif dernier_bilan "totalShareholderEquity" "0"
     | _ => true
     end.

(** A typed line is a number [>= 0]. *)
Definition nombre_positif (ligne : string) : bool :=
  match float_ ligne with
  | Ret v => fle 0 v
  | Raise _ => false
  end.

(** Every number typed at the manual entry, the growth rate apart, is
    [>= 0]. *)
Definition lignes_positives (lignes : list string) : bool :=
  match lignes with
  | _ :: _ :: prix :: bpa :: vcpa :: ra :: rp :: dette :: cp :: _ :: cap :: _ =>
      nombre_positif prix && nombre_positif bpa && nombre_positif vcpa
      && nombre_positif ra && nombre_positif rp && nombre_positif dette
      && nombre_positif cp && nombre_positif cap
  | _ => false
  end.

End AvecFloat.

End Signes.

(* ================================================================= *)
(** * Sample inputs *)

Module Exemples.

Local Open Scope string_scope.
Local Open Scope float_scope.

(** A company with no earnings, no book value, no prior revenue, no
    forecast and no equity. *)
Definition sans_benefices : DonneesEntreprise :=
  {| nom := "Perte SA";
     symbole := "PERTE";
     prix_action := 10.0;
     benefice_par_action := 0;
     valeur_comptable_par_action := 0;
     revenus_actuels := 50;
     revenus_annee_precedente := 0;
     dette_totale := 20;
     capitaux_propres := 0;
     croissance_benefices_prevue := 0;
     secteur := "finance";
     capitalisation_boursiere := 100 |}.

(** A provider whose overview reports a loss per share. *)
Definition reponses_perte : Recuperateur.Reponses :=
  {| Recuperateur.symbole_trouve := Some "ACME";
     Recuperateur.apercu_recu :=
       Some [("Symbol", "ACME"); ("Name", "Acme Corp");
             ("50DayMovingAverage", "34.5"); ("EPS", "-1.5");
             ("BookValue", "12.25"); ("Sector", "ENERGY")];
     Recuperateur.revenus_recus := None;
     Recuperateur.bilan_recu := None |}.

(** A provider all of whose numbers are positive. *)
Definition reponses_saines : Recuperateur.Reponses :=
  {| Recuperateur.symbole_trouve := Some "ACME";
     Recuperateur.apercu_recu :=
       Some [("Symbol", "ACME"); ("Name", "Acme Corp");
             ("50DayMovingAverage", "34.5"); ("EPS", "2.5");
             ("BookValue", "12.25"); ("MarketCapitalization", "2500000000");
             ("PERatio", "13.8"); ("PEGRatio", "1.2");
             ("Sector", "ENERGY")];
     Recuperateur.revenus_recus :=
       Some [[("totalRevenue", "1200000000")];
             [("totalRevenue", "1000000000")]];
     Recuperateur.bilan_recu :=
       Some [[("totalDebt", "None"); ("longTermDebt", "300000000");
              ("totalShareholderEquity", "800000000")]] |}.

(** Lines typed at the manual entry, the price negative. *)
Definition lignes_prix_negatif : list string :=
  ["Acme Corp"; "ACME"; "-5"; "2.5"; "12.25"; "1200"; "1000"; "300"; "800";
   "15"; "2500"; "Energie"].

(** Lines typed at the manual entry, every number positive. *)
Definition lignes_saines : list string :=
  ["Acme Corp"; "ACME"; "34.5"; "2.5"; "12.25"; "1200"; "1000"; "300"; "800";
   "15"; "2500"; "Energie"].

End Exemples.

(* ================================================================= *)
(** * Around the analysis: [analyser_entreprise_par_nom],
      [configurer_api_key] *)

Module Parcours.

Import Recuperateur Saisie.
Local Open Scope string_scope.
Local Open Scope exc_scope.

(** [str.strip()] on ASCII text. *)
Definition strip (s : string) : string :=
  string_of_list_ascii (PyBuiltin.strip (list_ascii_of_string s)).

(** [configurer_api_key]: the line typed, stripped, or ["demo"] when
    nothing is left of it. *)
Definition configurer_api_key : saisie string :=
  puis input (fun ligne =>
  let api_key := strip ligne in
  ret (if negb (truthy api_key) then "demo" else api_key)).

Section AvecFloat.

Variable float_ : string -> exc float.


End AvecFloat.

End Parcours.

(* ================================================================= *)
(** * Vocabulary of the further properties *)

Module Lacunes.

Local Open Scope string_scope.
Local Open Scope float_scope.

(** The income statement gives no pair of annual reports: the call failed
    or fewer than two reports came back. *)
Definition revenus_absents (revenus_data : option (list (dict string)))
  : bool :=
  match revenus_data with
  | Some (_ :: _ :: _) => false
  | _ => true
  end.

(** The balance sheet gives no annual report. *)
Definition bilan_absent (bilan_data : option (list (dict string))) : bool :=
  match bilan_data with
  | Some (_ :: _) => false
  | _ => true
  end.

(** The symbol search gave a symbol that is not empty and the overview
    call gave an overview that is not empty. *)
Definition disponible (reponses : Recuperateur.Reponses) : bool :=
  match Recuperateur.symbole_trouve reponses,
        Recuperateur.apercu_recu reponses with
  | Some sym, Some (_ :: _) => truthy sym
  | _, _ => false
  end.

(** A float that is a NaN: it differs from itself. *)
Definition est_nan (x : float) : bool := negb (feq x x).

(** The verdicts from worst to best. *)
Definition rang (c : Conclusion) : Z :=
  match c with
  | SUREVALUEE => 0
  | POSSIBLEMENT_SUREVALUEE => 1
  | VALORISATION_EQUITABLE => 2
  | SOUS_EVALUEE => 3
  | FORTEMENT_SOUS_EVALUEE => 4
  end.

(** The same company under another name, ticker and market
    capitalization. *)
Definition renommer (d : DonneesEntreprise) (nom' symbole' : string)
    (capitalisation' : float) : DonneesEntreprise :=
  {| nom := nom';
     symbole := symbole';
     prix_action := prix_action d;
     benefice_par_action := benefice_par_action d;
     valeur_comptable_par_action := valeur_comptable_par_action d;
     revenus_actuels := revenus_actuels d;
     revenus_annee_precedente := revenus_annee_precedente d;
     dette_totale := dette_totale d;
     capitaux_propres := capitaux_propres d;
     croissance_benefices_prevue := croissance_benefices_prevue d;
     secteur := secteur d;
     capitalisation_boursiere := capitalisation' |}.

(** The builtin [float] returns on this line. *)
Definition analysable (float_ : string -> exc float) (ligne : string)
  : bool :=
  match float_ ligne with
  | Ret _ => true
  | Raise _ => false
  end.

(** Twelve lines at least were typed, and the third to the eleventh are
    numbers for the builtin [float]. *)
Definition saisie_valide (float_ : string -> exc float)
    (lignes : list string) : bool :=
  (12 <=? length lignes)%nat
  && forallb (analysable float_) (firstn 9 (skipn 2 lignes)).

(** A line made of white space only. *)
Definition blanche (ligne : string) : bool :=
  forallb PyBuiltin.is_space (list_ascii_of_string ligne).

(** A provider that knows the symbol and nothing else. *)
Definition reponses_nues : Recuperateur.Reponses :=
  {| Recuperateur.symbole_trouve := Some "NUE";
     Recuperateur.apercu_recu := Some [("Symbol", "NUE")];
     Recuperateur.revenus_recus := None;
     Recuperateur.bilan_recu := None |}.

(** A company that takes the top band of every ladder. *)
Definition entreprise_ideale : DonneesEntreprise :=
  {| nom := "Ideal SA";
     symbole := "IDEAL";
     prix_action := 10;
     benefice_par_action := 2;
     valeur_comptable_par_action := 20;
     revenus_actuels := 120;
     revenus_annee_precedente := 100;
     dette_totale := 10;
     capitaux_propres := 100;
     croissance_benefices_prevue := 15;
     secteur := "finance";
     capitalisation_boursiere := 1000 |}.

(** The scores each ladder can give. *)
Definition scores_pe_definis : list Z := [90; 70; 50; 30; 10]%Z.
Definition scores_pb : list Z := [85; 65; 50; 25]%Z.
Definition scores_peg : list Z := [20; 95; 80; 50; 30; 10]%Z.
Definition scores_croissance : list Z := [80; 65; 45; 20]%Z.
Definition scores_endettement : list Z := [0; 80; 60; 40; 20]%Z.

(** The weighted sum of five scores is within [14, 87.25]. *)
Definition dans_l_echelle (a b c d e : Z) : bool :=
  fle 14 (score_pondere a b c d e) && fle (score_pondere a b c d e) 87.25.

(** [dans_l_echelle] on every choice of scores in five lists. *)
Definition partout (la lb lc ld le_ : list Z) : bool :=
  forallb (fun a =>
  forallb (fun b =>
  forallb (fun c =>
  forallb (fun d =>
  forallb (fun e => dans_l_echelle a b c d e) le_) ld) lc) lb) la.

End Lacunes.

(* ================================================================= *)
(** * The remote calls, after decoding

    [rechercher_symbole] as a function of what [requests.get(...)]
    followed by [response.json()] produced: a decoded JSON value, or an
    exception.  Every exception raised in its [try] block is caught and
    turned into [None]. *)

Module Appels.

Local Open Scope string_scope.

(** A decoded JSON value; a number is kept as its text. *)
#[warnings="-register-all"]
Inductive json : Type :=
| JNull
| JBool (b : bool)
| JNum (texte : string)
| JStr (s : string)
| JList (l : list json)
| JDict (d : list (string * json)).

Inductive erreur : Set :=
| RequestException
| TypeError
| KeyError
| IndexError.

Inductive essai (A : Type) : Type :=
| Valeur (a : A)
| Leve (e : erreur).
Arguments Valeur {A} a.
Arguments Leve {A} e.

Definition et_puis {A B : Type} (c : essai A) (k : A -> essai B) : essai B :=
  match c with
  | Valeur a => k a
  | Leve e => Leve e
  end.

(** [try: ... except Exception: return None]. *)
Definition ou_rien {A : Type} (c : essai (option A)) : option A :=
  match c with
  | Valeur r => r
  | Leve _ => None
  end.

(** [cle in data]: a key of an object, an element of an array, a piece of
    a string; a [TypeError] on anything else. *)
Definition dans (cle : string) (data : json) : essai bool :=
  match data with
  | JDict d =>
      Valeur (match lookup cle d with Some _ => true | None => false end)
  | JList l =>
      Valeur (existsb (fun x => match x with
                                | JStr s => String.eqb s cle
                                | _ => false
                                end) l)
  | JStr s =>
      Valeur (match String.index 0 cle s with Some _ => true | None => false end)
  | _ => Leve TypeError
  end.

(** [data[cle]] for a [str] key. *)
Definition a_la_cle (data : json) (cle : string) : essai json :=
  match data with
  | JDict d =>
      match lookup cle d with
      | Some v => Valeur v
      | None => Leve KeyError
      end
  | _ => Leve TypeError
  end.

(** [len(data)]. *)
Definition longueur (data : json) : essai nat :=
  match data with
  | JList l => Valeur (List.length l)
  | JStr s => Valeur (String.length s)
  | JDict d => Valeur (List.length d)
  | _ => Leve TypeError
  end.

(** [data[0]]. *)
Definition premier (data : json) : essai json :=
  match data with
  | JList (x :: _) => Valeur x
  | JList [] => Leve IndexError
  | JStr (String c _) => Valeur (JStr (String c EmptyString))
  | JStr EmptyString => Leve IndexError
  | JDict _ => Leve KeyError
  | _ => Leve TypeError
  end.

Definition rechercher_symbole (reponse : essai json) : option json :=
  ou_rien
    (et_puis reponse (fun data =>
     et_puis (dans "bestMatches" data) (fun present =>
     et_puis (if present
              then et_puis (a_la_cle data "bestMatches") (fun matches =>
                   et_puis (longueur matches) (fun n =>
                   Valeur (0 <? n)%nat))
              else Valeur false) (fun trouve =>
     if trouve
     then et_puis (a_la_cle data "bestMatches") (fun matches =>
          et_puis (premier matches) (fun match_ =>
          et_puis (a_la_cle match_ "1. symbol") (fun symbole =>
          et_puis (a_la_cle match_ "2. name") (fun nom_complet =>
          Valeur (Some symbole)))))
     else Valeur None)))).

End Appels.

(* ================================================================= *)
(** * The order on finite floats *)

(** The order of [SFcompare] on two finite numbers of one sign: by
    exponent, then by mantissa. *)
Definition compare_finis (e1 : Z) (m1 : positive) (e2 : Z) (m2 : positive)
  : comparison :=
  match (e1 ?= e2)%Z with
  | Eq => Pos.compare m1 m2
  | Lt => Lt
  | Gt => Gt
  end.

(* ================================================================= *)
(** * Facts about float comparisons *)

Section Comparaisons.

Local Open Scope float_scope.

Lemma SFcompare_antisym (x y : spec_float) :
  SFcompare y x = option_map CompOpp (SFcompare x y).
Proof.
  destruct x as [sx | sx | | sx mx ex], y as [sy | sy | | sy my ey];
    try destruct sx; try destruct sy; simpl; try reflexivity.
  - rewrite (Z.compare_antisym ex ey).
    destruct (ex ?= ey)%Z; simpl; try reflexivity.
    change (PosDef.Pos.compare_cont Eq) with Pos.compare.
    now rewrite (Pos.compare_antisym mx my), CompOpp_involutive.
  - rewrite (Z.compare_antisym ex ey).
    destruct (ex ?= ey)%Z; simpl; try reflexivity.
    change (PosDef.Pos.compare_cont Eq) with Pos.compare.
    now rewrite (Pos.compare_antisym mx my).
Qed.

Lemma compare_finis_spec e1 m1 e2 m2 :
  match compare_finis e1 m1 e2 m2 with
  | Eq => e1 = e2 /\ m1 = m2
  | Lt => (e1 < e2)%Z \/ (e1 = e2 /\ (m1 < m2)%positive)
  | Gt => (e2 < e1)%Z \/ (e1 = e2 /\ (m2 < m1)%positive)
  end.
Proof.
  unfold compare_finis.
  destruct (Z.compare_spec e1 e2); auto.
  destruct (Pos.compare_spec m1 m2); auto.
Qed.

Lemma compare_finis_trans e1 m1 e2 m2 e3 m3 c :
  compare_finis e1 m1 e2 m2 = c ->
  compare_finis e2 m2 e3 m3 = c ->
  compare_finis e1 m1 e3 m3 = c.
Proof.
  intros H12 H23.
  pose proof (compare_finis_spec e1 m1 e2 m2) as S12.
  pose proof (compare_finis_spec e2 m2 e3 m3) as S23.
  pose proof (compare_finis_spec e1 m1 e3 m3) as S13.
  rewrite H12 in S12. rewrite H23 in S23.
  destruct c, (compare_finis e1 m1 e3 m3); try reflexivity; lia.
Qed.

Lemma compare_finis_eq_l e1 m1 e2 m2 e3 m3 :
  compare_finis e1 m1 e2 m2 = Eq ->
  compare_finis e1 m1 e3 m3 = compare_finis e2 m2 e3 m3.
Proof.
  intros H12.
  pose proof (compare_finis_spec e1 m1 e2 m2) as S12.
  rewrite H12 in S12. destruct S12 as [-> ->]. reflexivity.
Qed.

Lemma SFcompare_finis s m1 e1 m2 e2 :
  SFcompare (S754_finite s m1 e1) (S754_finite s m2 e2)
  = Some (if s then CompOpp (compare_finis e1 m1 e2 m2)
          else compare_finis e1 m1 e2 m2).
Proof.
  unfold compare_finis. destruct s; simpl;
    destruct (e1 ?= e2)%Z; reflexivity.
Qed.

(** [SFcompare] is transitive on strict inequalities. *)
Lemma SFcompare_lt_trans (x y z : spec_float) :
  SFcompare x y = Some Lt -> SFcompare y z = Some Lt ->
  SFcompare x z = Some Lt.
Proof.
  destruct x as [sx | sx | | sx mx ex], y as [sy | sy | | sy my ey],
           z as [sz | sz | | sz mz ez];
    try destruct sx; try destruct sy; try destruct sz;
    try (simpl; intros; first [discriminate | reflexivity]).
  - rewrite !SFcompare_finis. intros H1 H2. f_equal.
    injection H1 as H1. injection H2 as H2.
    apply (f_equal CompOpp) in H1, H2.
    rewrite CompOpp_involutive in H1, H2. simpl in H1, H2.
    rewrite (compare_finis_trans _ _ _ _ _ _ _ H1 H2). reflexivity.
  - rewrite !SFcompare_finis. intros H1 H2. f_equal.
    injection H1 as H1. injection H2 as H2.
    apply (compare_finis_trans _ _ _ _ _ _ _ H1 H2).
Qed.

(** An equality on the left can be replaced. *)
Lemma SFcompare_eq_l (x y z : spec_float) :
  SFcompare x y = Some Eq -> SFcompare x z = SFcompare y z.
Proof.
  destruct x as [sx | sx | | sx mx ex], y as [sy | sy | | sy my ey],
           z as [sz | sz | | sz mz ez];
    try destruct sx; try destruct sy; try destruct sz;
    try (simpl; intros; first [discriminate | reflexivity]).
  - rewrite !SFcompare_finis. intros H1. injection H1 as H1.
    apply (f_equal CompOpp) in H1.
    rewrite CompOpp_involutive in H1. simpl in H1.
    now rewrite (compare_finis_eq_l _ _ _ _ ez mz H1).
  - rewrite !SFcompare_finis. intros H1. injection H1 as H1.
    now rewrite (compare_finis_eq_l _ _ _ _ ez mz H1).
Qed.

(** ** The same facts on the comparisons of the source *)

Lemma feq_fle (x y : float) : feq x y = true -> fle x y = true.
Proof.
  unfold feq, fle. rewrite FloatAxioms.eqb_spec, FloatAxioms.leb_spec.
  unfold SFeqb, SFleb.
  destruct (SFcompare _ _) as [[]|]; auto.
Qed.

(** [x < y] excludes [x >= y]. *)
Lemma flt_not_fge (x y : float) : flt x y = true -> fge x y = false.
Proof.
  unfold flt, fge. rewrite FloatAxioms.ltb_spec, FloatAxioms.leb_spec.
  unfold SFltb, SFleb.
  rewrite (SFcompare_antisym (Prim2SF x) (Prim2SF y)).
  destruct (SFcompare _ _) as [[]|]; simpl; auto; discriminate.
Qed.

(** Two numbers that are not NaN are comparable. *)
Lemma fge_or_flt (x y : float) :
  feq x x = true -> feq y y = true -> fge x y = true \/ flt x y = true.
Proof.
  unfold feq, flt, fge.
  rewrite !FloatAxioms.eqb_spec, FloatAxioms.ltb_spec, FloatAxioms.leb_spec.
  unfold SFeqb, SFltb, SFleb.
  rewrite (SFcompare_antisym (Prim2SF x) (Prim2SF y)).
  destruct (Prim2SF x) as [sx | sx | | sx mx ex],
           (Prim2SF y) as [sy | sy | | sy my ey];
    try discriminate; intros _ _;
    destruct (SFcompare _ _) as [[]|] eqn:E; simpl; auto;
    simpl in E; discriminate.
Qed.

Lemma fle_refl_r (x y : float) : fle x y = true -> feq y y = true.
Proof.
  unfold feq, fle. rewrite FloatAxioms.eqb_spec, FloatAxioms.leb_spec.
  unfold SFeqb, SFleb.
  destruct (Prim2SF y) as [sy | sy | | sy my ey].
  - reflexivity.
  - destruct sy; reflexivity.
  - destruct (Prim2SF x) as [sx | sx | | sx mx ex]; simpl; discriminate.
  - intros _. rewrite SFcompare_finis.
    pose proof (compare_finis_spec ey my ey my) as S.
    destruct (compare_finis ey my ey my); [destruct sy; reflexivity | lia | lia].
Qed.

Lemma flt_trans (x y z : float) :
  flt x y = true -> flt y z = true -> flt x z = true.
Proof.
  unfold flt. rewrite !FloatAxioms.ltb_spec. unfold SFltb.
  destruct (SFcompare (Prim2SF x) (Prim2SF y)) as [[]|] eqn:E1;
    try discriminate.
  destruct (SFcompare (Prim2SF y) (Prim2SF z)) as [[]|] eqn:E2;
    try discriminate.
  now rewrite (SFcompare_lt_trans _ _ _ E1 E2).
Qed.

Lemma SFcompare_eq_r (x y z : spec_float) :
  SFcompare y z = Some Eq -> SFcompare x y = SFcompare x z.
Proof.
  intros H.
  rewrite (SFcompare_antisym y x), (SFcompare_antisym z x).
  now rewrite (SFcompare_eq_l y z x H).
Qed.

Lemma flt_fle_trans (x y z : float) :
  flt x y = true -> fle y z = true -> flt x z = true.
Proof.
  intros H. unfold fle. rewrite FloatAxioms.leb_spec. unfold SFleb.
  destruct (SFcompare (Prim2SF y) (Prim2SF z)) as [[]|] eqn:E;
    try discriminate; intros _.
  - revert H. unfold flt. rewrite !FloatAxioms.ltb_spec. unfold SFltb.
    now rewrite (SFcompare_eq_r (Prim2SF x) _ _ E).
  - apply (flt_trans x y z H). unfold flt. rewrite FloatAxioms.ltb_spec.
    unfold SFltb. now rewrite E.
Qed.

(** Nothing is above [float('inf')]. *)
Lemma flt_inf_l (x : float) : flt inf x = false.
Proof.
  unfold flt. rewrite FloatAxioms.ltb_spec.
  change (Prim2SF inf) with (S754_infinity false).
  unfold SFltb. destruct (Prim2SF x) as [s | s | | s m e];
    try destruct s; reflexivity.
Qed.

(** The guards [x <= 0] of the ratio functions cover the zero divisors,
    so no division raises. *)
Lemma truediv_garde (x y : float) :
  fle y 0 = false -> truediv x y = Ret (x / y).
Proof.
  intros H. unfold truediv. fold (feq y 0).
  destruct (feq y 0) eqn:E; auto.
  apply feq_fle in E. congruence.
Qed.

End Comparaisons.

(* ================================================================= *)
(** * The ratios *)

Section Ratios.

Local Open Scope float_scope.

Variable donnees : DonneesEntreprise.

Lemma calculer_ratio_pe_ret :
  calculer_ratio_pe donnees
  = Ret (Spec.pe (prix_action donnees) (benefice_par_action donnees)).
Proof.
  unfold calculer_ratio_pe, Spec.pe.
  destruct (fle (benefice_par_action donnees) 0) eqn:E; [reflexivity|].
  now apply truediv_garde.
Qed.

Lemma calculer_ratio_pb_ret :
  calculer_ratio_pb donnees
  = Ret (Spec.pb (prix_action donnees) (valeur_comptable_par_action donnees)).
Proof.
  unfold calculer_ratio_pb, Spec.pb.
  destruct (fle (valeur_comptable_par_action donnees) 0) eqn:E; [reflexivity|].
  now apply truediv_garde.
Qed.

Lemma calculer_ratio_peg_ret :
  calculer_ratio_peg donnees
  = Ret (Spec.peg (Spec.pe (prix_action donnees) (benefice_par_action donnees))
                  (croissance_benefices_prevue donnees)).
Proof.
  unfold calculer_ratio_peg. rewrite calculer_ratio_pe_ret. simpl bind.
  unfold Spec.peg, Spec.est_indefini, Spec.indefini.
  destruct (feq _ inf) eqn:E1; [reflexivity|]. simpl orb.
  destruct (fle (croissance_benefices_prevue donnees) 0) eqn:E2; [reflexivity|].
  now apply truediv_garde.
Qed.

Lemma calculer_croissance_revenus_ret :
  calculer_croissance_revenus donnees
  = Ret (Spec.croissance_revenus (revenus_actuels donnees)
                                 (revenus_annee_precedente donnees)).
Proof.
  unfold calculer_croissance_revenus, Spec.croissance_revenus.
  destruct (fle (revenus_annee_precedente donnees) 0) eqn:E; [reflexivity|].
  now rewrite truediv_garde.
Qed.

Lemma calculer_ratio_endettement_ret :
  calculer_ratio_endettement donnees
  = Ret (Spec.endettement (dette_totale donnees) (capitaux_propres donnees)).
Proof.
  unfold calculer_ratio_endettement, Spec.endettement.
  destruct (fle (capitaux_propres donnees) 0) eqn:E; [reflexivity|].
  now apply truediv_garde.
Qed.

(** [analyser_entreprise] never raises, and its result is made of the five
    ratios, their ladder scores, the weighted sum and its verdict. *)
Lemma analyser_entreprise_ret :
  let pe := Spec.pe (prix_action donnees) (benefice_par_action donnees) in
  let pb :=
    Spec.pb (prix_action donnees) (valeur_comptable_par_action donnees) in
  let peg := Spec.peg pe (croissance_benefices_prevue donnees) in
  let cr := Spec.croissance_revenus (revenus_actuels donnees)
                                    (revenus_annee_precedente donnees) in
  let re := Spec.endettement (dette_totale donnees)
                             (capitaux_propres donnees) in
  let refs := obtenir_references (secteur donnees) in
  exists res,
    analyser_entreprise donnees = Ret res
    /\ ratios res = {| r_pe := pe; r_pb := pb; r_peg := peg;
                       r_croissance_revenus := cr;
                       r_ratio_endettement := re |}
    /\ s_pe (scores res) = fst (evaluer_ratio_pe pe refs)
    /\ s_pb (scores res) = fst (evaluer_ratio_pb pb refs)
    /\ s_peg (scores res) = fst (evaluer_ratio_peg peg)
    /\ s_croissance (scores res) = fst (evaluer_croissance cr refs)
    /\ s_endettement (scores res) = fst (evaluer_endettement re)
    /\ explications res
       = [snd (evaluer_ratio_pe pe refs); snd (evaluer_ratio_pb pb refs);
          snd (evaluer_ratio_peg peg); snd (evaluer_croissance cr refs);
          snd (evaluer_endettement re)]
    /\ s_final (scores res)
       = score_pondere (s_pe (scores res)) (s_pb (scores res))
                       (s_peg (scores res)) (s_croissance (scores res))
                       (s_endettement (scores res))
    /\ conclusion res = conclure (s_final (scores res)).
Proof.
  intros pe pb peg cr re refs.
  unfold analyser_entreprise.
  rewrite calculer_ratio_pe_ret, calculer_ratio_pb_ret,
    calculer_ratio_peg_ret, calculer_croissance_revenus_ret,
    calculer_ratio_endettement_ret.
  simpl bind. fold pe pb peg cr re refs.
  destruct (evaluer_ratio_pe pe refs) as [s1 x1].
  destruct (evaluer_ratio_pb pb refs) as [s2 x2].
  destruct (evaluer_ratio_peg peg) as [s3 x3].
  destruct (evaluer_croissance cr refs) as [s4 x4].
  destruct (evaluer_endettement re) as [s5 x5].
  eexists. split; [reflexivity|]. simpl. repeat split.
Qed.

End Ratios.

(** C1. On every record the five ratio computations return, without
    raising, the value that section 4.2 of the specification defines:
    P/E = price / EPS, undefined when EPS <= 0; P/B = price / book value,
    undefined when book value <= 0; PEG = P/E / growth, undefined when P/E
    is undefined or growth <= 0; revenue growth = (current - prior) / prior
    * 100, and 0 when prior <= 0; debt/equity = debt / equity, undefined
    when equity <= 0.  "Undefined" is the analyzer's [float('inf')]. *)
Theorem C1_ratios_conformes (d : DonneesEntreprise) :
  calculer_ratio_pe d
  = Ret (Spec.pe (prix_action d) (benefice_par_action d))
  /\ calculer_ratio_pb d
     = Ret (Spec.pb (prix_action d) (valeur_comptable_par_action d))
  /\ calculer_ratio_peg d
     = Ret (Spec.peg (Spec.pe (prix_action d) (benefice_par_action d))
                     (croissance_benefices_prevue d))
  /\ calculer_croissance_revenus d
     = Ret (Spec.croissance_revenus (revenus_actuels d)
                                    (revenus_annee_precedente d))
  /\ calculer_ratio_endettement d
     = Ret (Spec.endettement (dette_totale d) (capitaux_propres d)).
Proof.
  repeat split.
  - apply calculer_ratio_pe_ret.
  - apply calculer_ratio_pb_ret.
  - apply calculer_ratio_peg_ret.
  - apply calculer_croissance_revenus_ret.
  - apply calculer_ratio_endettement_ret.
Qed.

(* ================================================================= *)
(** * Undefined ratios in the ladders *)

Lemma evaluer_ratio_pe_inf (refs : References) :
  evaluer_ratio_pe inf refs = (0%Z, PE_infini).
Proof. reflexivity. Qed.

Lemma evaluer_ratio_peg_inf : evaluer_ratio_peg inf = (20%Z, PEG_non_calculable).
Proof. reflexivity. Qed.

Lemma evaluer_endettement_inf :
  evaluer_endettement inf = (0%Z, Endettement_critique).
Proof. reflexivity. Qed.

(** The P/B ladder has no branch for [float('inf')]: every comparison
    [inf < ...] fails and the [else] band is taken. *)
Lemma evaluer_ratio_pb_inf (refs : References) :
  evaluer_ratio_pb inf refs = (25%Z, PB_eleve inf (pb_moyen refs)).
Proof. unfold evaluer_ratio_pb. now rewrite !flt_inf_l. Qed.

Lemma spec_peg_inf (croissance : float) : Spec.peg inf croissance = inf.
Proof. reflexivity. Qed.

(** C2. For every record the analysis returns, and: whenever EPS <= 0 the
    P/E is [float('inf')] and scores exactly 0 through the ladder's own
    branch, the PEG is [float('inf')] as well and scores exactly 20 through
    its own branch, whatever the other fields; whenever equity <= 0 the
    debt/equity ratio is [float('inf')] and scores exactly 0 through its own
    branch. *)
Theorem C2_scores_des_ratios_indefinis (d : DonneesEntreprise) :
  exists res,
    analyser_entreprise d = Ret res
    /\ (fle (benefice_par_action d) 0 = true ->
        r_pe (ratios res) = inf
        /\ s_pe (scores res) = 0%Z
        /\ nth_error (explications res) 0 = Some PE_infini
        /\ r_peg (ratios res) = inf
        /\ s_peg (scores res) = 20%Z
        /\ nth_error (explications res) 2 = Some PEG_non_calculable)
    /\ (fle (capitaux_propres d) 0 = true ->
        r_ratio_endettement (ratios res) = inf
        /\ s_endettement (scores res) = 0%Z
        /\ nth_error (explications res) 4 = Some Endettement_critique).
Proof.
  destruct (analyser_entreprise_ret d)
    as (res & Hres & Hr & H1 & _ & H3 & _ & H5 & Hx & _).
  exists res. split; [exact Hres|].
  rewrite Hr, H1, H3, H5, Hx. cbn [r_pe r_peg r_ratio_endettement nth_error].
  split; intros E.
  - unfold Spec.pe. rewrite E. fold inf. change Spec.indefini with inf.
    rewrite spec_peg_inf, evaluer_ratio_pe_inf, evaluer_ratio_peg_inf.
    repeat split.
  - unfold Spec.endettement. rewrite E. change Spec.indefini with inf.
    rewrite evaluer_endettement_inf. repeat split.
Qed.

(** C10. For every record with book value per share <= 0 the P/B ratio is
    [float('inf')] and its score is exactly 25, the [else] band of the P/B
    ladder, which has no branch of its own for the undefined ratio. *)
Theorem C10_pb_indefini_note_25 (d : DonneesEntreprise) :
  exists res,
    analyser_entreprise d = Ret res
    /\ (fle (valeur_comptable_par_action d) 0 = true ->
        r_pb (ratios res) = inf
        /\ s_pb (scores res) = 25%Z
        /\ nth_error (explications res) 1
           = Some (PB_eleve inf (pb_moyen (obtenir_references (secteur d))))).
Proof.
  destruct (analyser_entreprise_ret d)
    as (res & Hres & Hr & _ & H2 & _ & _ & _ & Hx & _).
  exists res. split; [exact Hres|].
  rewrite Hr, H2, Hx. cbn [r_pb nth_error].
  intros E. unfold Spec.pb. rewrite E. change Spec.indefini with inf.
  rewrite evaluer_ratio_pb_inf. repeat split.
Qed.

Lemma C2_temoin :
  exists res,
    analyser_entreprise Exemples.sans_benefices = Ret res
    /\ s_pe (scores res) = 0%Z /\ s_peg (scores res) = 20%Z
    /\ s_endettement (scores res) = 0%Z.
Proof.
  destruct (C2_scores_des_ratios_indefinis Exemples.sans_benefices)
    as (res & H & Hpe & Hend).
  exists res. split; [exact H|].
  destruct (Hpe eq_refl) as (_ & H1 & _ & _ & H2 & _).
  destruct (Hend eq_refl) as (_ & H3 & _).
  exact (conj H1 (conj H2 H3)).
Defined.

Lemma C10_temoin :
  exists res,
    analyser_entreprise Exemples.sans_benefices = Ret res
    /\ r_pb (ratios res) = inf /\ s_pb (scores res) = 25%Z.
Proof.
  destruct (C10_pb_indefini_note_25 Exemples.sans_benefices)
    as (res & H & Hpb).
  exists res. split; [exact H|].
  destruct (Hpb eq_refl) as (H1 & H2 & _).
  exact (conj H1 H2).
Defined.

(* ================================================================= *)
(** * How an undefined ratio is represented *)

(** C8, refuted as stated: on a record whose denominators are all zero, the
    four undefined ratios are returned as the IEEE number +infinity, a value
    of the numeric type, and the revenue growth as the number 0; none is a
    tagged or optional result. *)
Lemma C8_contre_exemple :
  fle (benefice_par_action Exemples.sans_benefices) 0 = true
  /\ fle (valeur_comptable_par_action Exemples.sans_benefices) 0 = true
  /\ fle (revenus_annee_precedente Exemples.sans_benefices) 0 = true
  /\ fle (capitaux_propres Exemples.sans_benefices) 0 = true
  /\ calculer_ratio_pe Exemples.sans_benefices = Ret infinity
  /\ calculer_ratio_pb Exemples.sans_benefices = Ret infinity
  /\ calculer_ratio_peg Exemples.sans_benefices = Ret infinity
  /\ calculer_ratio_endettement Exemples.sans_benefices = Ret infinity
  /\ calculer_croissance_revenus Exemples.sans_benefices = Ret 0%float
  /\ classify infinity = PInf
  /\ classify 0%float = PZero
  /\ ~ (forall d v, fle (benefice_par_action d) 0 = true ->
                    calculer_ratio_pe d = Ret v -> classify v <> PInf).
Proof.
  repeat split.
  intros H. exact (H Exemples.sans_benefices infinity eq_refl eq_refl eq_refl).
Qed.

(** C8, amended: an undefined ratio is represented by the float +infinity
    ([float('inf')]): P/E when EPS <= 0, P/B when book value <= 0, PEG when
    the P/E is +infinity or growth <= 0, debt/equity when equity <= 0; the
    revenue growth with prior revenue <= 0 is the number 0.  The operations
    return that float and do not raise. *)
Theorem C8_indefini_est_infini (d : DonneesEntreprise) :
  classify inf = PInf
  /\ (fle (benefice_par_action d) 0 = true -> calculer_ratio_pe d = Ret inf)
  /\ (fle (valeur_comptable_par_action d) 0 = true ->
      calculer_ratio_pb d = Ret inf)
  /\ (forall pe, calculer_ratio_pe d = Ret pe ->
      feq pe inf || fle (croissance_benefices_prevue d) 0 = true ->
      calculer_ratio_peg d = Ret inf)
  /\ (fle (capitaux_propres d) 0 = true ->
      calculer_ratio_endettement d = Ret inf)
  /\ (fle (revenus_annee_precedente d) 0 = true ->
      calculer_croissance_revenus d = Ret 0%float).
Proof.
  split; [reflexivity|].
  split; [|split; [|split; [|split]]].
  - intros E. unfold calculer_ratio_pe. now rewrite E.
  - intros E. unfold calculer_ratio_pb. now rewrite E.
  - intros pe Hpe E. unfold calculer_ratio_peg. rewrite Hpe. simpl bind.
    now rewrite E.
  - intros E. unfold calculer_ratio_endettement. now rewrite E.
  - intros E. unfold calculer_croissance_revenus. now rewrite E.
Qed.

Lemma C8_temoin :
  calculer_ratio_pe Exemples.sans_benefices = Ret inf
  /\ calculer_ratio_pb Exemples.sans_benefices = Ret inf
  /\ calculer_ratio_peg Exemples.sans_benefices = Ret inf
  /\ calculer_ratio_endettement Exemples.sans_benefices = Ret inf
  /\ calculer_croissance_revenus Exemples.sans_benefices = Ret 0%float.
Proof.
  destruct (C8_indefini_est_infini Exemples.sans_benefices)
    as (_ & H1 & H2 & H3 & H4 & H5).
  exact (conj (H1 eq_refl) (conj (H2 eq_refl)
          (conj (H3 inf eq_refl eq_refl) (conj (H4 eq_refl) (H5 eq_refl))))).
Defined.

(* ================================================================= *)
(** * The sector table *)

Lemma get_cas {V : Type} (d : dict V) (key : string) (default : V) :
  get d key default = default \/ In (get d key default) (map snd d).
Proof.
  unfold get. induction d as [|[k v] d IH]; simpl; [now left|].
  destruct (String.eqb key k); [right; now left|].
  destruct IH as [IH|IH]; [now left | right; now right].
Qed.

(** Whatever the sector tag, the references are an entry of the table. *)
Lemma obtenir_references_cas (secteur : string) :
  In (obtenir_references secteur) (map snd references_secteur).
Proof.
  unfold obtenir_references.
  destruct (get_cas references_secteur (lower secteur)
              (get references_secteur "defaut" references_defaut)) as [H|H];
    [|exact H].
  rewrite H. cbv. tauto.
Qed.

(** A property of every entry of the table holds of the references of
    every sector tag. *)
Lemma pour_toute_reference (P : References -> Prop) :
  Forall P (map snd references_secteur) ->
  forall secteur, P (obtenir_references secteur).
Proof.
  intros H secteur. rewrite Forall_forall in H.
  apply H, obtenir_references_cas.
Qed.

(* ================================================================= *)
(** * Ties at the thresholds *)

(** C5. The comparisons of every ladder are strict, so a ratio equal to a
    threshold takes the band below it.  For the references [r] of every
    sector tag: a P/E equal to [0.70 * r] scores 70 and not 90, and so on
    down the P/E ladder; likewise for P/B; a revenue growth equal to 1.5
    times the sector average scores 65 and not 80, one equal to the average
    45, one equal to 0 scores 20; and for the absolute ladders, a PEG of
    0.5, 1.0, 1.5, 2.0 scores 80, 50, 30, 10 and a debt ratio of 0.3, 0.6,
    1.0 scores 60, 40, 20. *)
Theorem C5_egalite_au_seuil (secteur : string) :
  let refs := obtenir_references secteur in
  let pe := pe_moyen refs in
  let pb := pb_moyen refs in
  let cr := croissance_moyenne refs in
  (fst (evaluer_ratio_pe (pe * 0.7) refs) = 70
   /\ fst (evaluer_ratio_pe (pe * 0.85) refs) = 50
   /\ fst (evaluer_ratio_pe (pe * 1.15) refs) = 30
   /\ fst (evaluer_ratio_pe (pe * 1.5) refs) = 10)%Z
  /\ (fst (evaluer_ratio_pb (pb * 0.6) refs) = 65
      /\ fst (evaluer_ratio_pb (pb * 0.8) refs) = 50
      /\ fst (evaluer_ratio_pb (pb * 1.2) refs) = 25)%Z
  /\ (fst (evaluer_croissance (cr * 1.5) refs) = 65
      /\ fst (evaluer_croissance cr refs) = 45
      /\ fst (evaluer_croissance 0 refs) = 20)%Z
  /\ (fst (evaluer_ratio_peg 0.5) = 80
      /\ fst (evaluer_ratio_peg 1.0) = 50
      /\ fst (evaluer_ratio_peg 1.5) = 30
      /\ fst (evaluer_ratio_peg 2.0) = 10)%Z
  /\ (fst (evaluer_endettement 0.3) = 60
      /\ fst (evaluer_endettement 0.6) = 40
      /\ fst (evaluer_endettement 1.0) = 20)%Z.
Proof.
  cbv zeta. pattern (obtenir_references secteur).
  apply pour_toute_reference. repeat constructor.
Qed.

(** The two examples of C5 read on decimal numbers: for each entry of the
    table, in its order, the float nearest to 0.70 times the average P/E
    scores 70, and 1.5 times the average growth scores 65. *)
Lemma seuils_decimaux :
  Forall2
    (fun refs '(pe, croissance) =>
       fst (evaluer_ratio_pe pe refs) = 70%Z
       /\ fst (evaluer_croissance croissance refs) = 65%Z)
    (map snd references_secteur)
    [(17.5, 22.5); (8.4, 12); (12.6, 18); (11.2, 9); (14, 15); (9.8, 7.5);
     (12.6, 15)]%float.
Proof. repeat constructor. Qed.

(** A threshold is the float product that the source computes, which need
    not be the float nearest to the decimal product: [3.5 * 0.8] is the
    float above the one nearest to 2.8, so in the sector "consommation" a
    P/B of 28 / 10 is below the threshold [pb_moyen * 0.8] and scores
    65. *)
Lemma seuil_pb_arrondi :
  let refs := obtenir_references "consommation" in
  (flt 2.8 (pb_moyen refs * 0.8) = true
   /\ (28 / 10 = 2.8)%float
   /\ evaluer_ratio_pb (28 / 10) refs = (65%Z, PB_faible 2.8 3.5))%float.
Proof. repeat split. Qed.

(* ================================================================= *)
(** * The worked example of [exemple_analyse] *)

(** C6. For price 25.0, EPS 3.50, book value 18.0, revenues 1200 against
    1000, debt 300, equity 800, growth 15.0 and sector "industrie": the P/E
    is 7.14 and the P/B 1.39 to two decimals, the revenue growth is 20.0 and
    the debt ratio 0.375; the industry benchmark P/E is 16, [16 * 0.7] is
    11.2 and the P/E is below it, so the P/E score is 90; the final score,
    85.25, is at least 60 and the verdict is the "undervalued" tier or the
    one above. *)
Theorem C6_exemple_valuecorp :
  exists res,
    analyser_entreprise entreprise_sous_evaluee = Ret res
    /\ fle 7.135 (r_pe (ratios res)) = true
    /\ flt (r_pe (ratios res)) 7.145 = true
    /\ fle 1.385 (r_pb (ratios res)) = true
    /\ flt (r_pb (ratios res)) 1.395 = true
    /\ r_croissance_revenus (ratios res) = 20.0%float
    /\ r_ratio_endettement (ratios res) = 0.375%float
    /\ pe_moyen (obtenir_references (secteur entreprise_sous_evaluee))
       = 16%float
    /\ (16 * 0.7 = 11.2)%float
    /\ flt (r_pe (ratios res)) 11.2 = true
    /\ s_pe (scores res) = 90%Z
    /\ s_final (scores res) = 85.25%float
    /\ fge (s_final (scores res)) 60 = true
    /\ (conclusion res = SOUS_EVALUEE
        \/ conclusion res = FORTEMENT_SOUS_EVALUEE).
Proof.
  eexists. split; [vm_compute; reflexivity|].
  cbn [ratios scores conclusion r_pe r_pb r_croissance_revenus
       r_ratio_endettement s_pe s_final].
  repeat split. now right.
Qed.

(* ================================================================= *)
(** * The verdict *)

Section Verdict.

Local Open Scope float_scope.

Lemma flt_exclut_fge (s a b : float) :
  flt s a = true -> fle a b = true -> fge s b = false.
Proof.
  intros H1 H2. apply flt_not_fge. now apply (flt_fle_trans s a b).
Qed.

(** C4. The verdict tiers cover [0, 100] without gaps, lower bounds
    included: a final score >= 75 is "strongly undervalued"
    ([FORTEMENT_SOUS_EVALUEE]), >= 60 and < 75 "undervalued", >= 40 and < 60
    "fair", >= 25 and < 40 "possibly overvalued", < 25 "overvalued"; every
    score of [0, 100] falls in one of these ranges; and 75, 60, 40, 25 land
    in the upper tier of their boundary while 74.9, 59.9, 39.9, 24.9 land in
    the lower one. *)
Theorem C4_paliers_du_verdict (s : float) :
  (fge s 75 = true -> conclure s = FORTEMENT_SOUS_EVALUEE)
  /\ (fge s 60 = true -> flt s 75 = true -> conclure s = SOUS_EVALUEE)
  /\ (fge s 40 = true -> flt s 60 = true ->
      conclure s = VALORISATION_EQUITABLE)
  /\ (fge s 25 = true -> flt s 40 = true ->
      conclure s = POSSIBLEMENT_SUREVALUEE)
  /\ (flt s 25 = true -> conclure s = SUREVALUEE)
  /\ (fle 0 s = true -> fle s 100 = true ->
      fge s 75 = true
      \/ (fge s 60 = true /\ flt s 75 = true)
      \/ (fge s 40 = true /\ flt s 60 = true)
      \/ (fge s 25 = true /\ flt s 40 = true)
      \/ flt s 25 = true)
  /\ (conclure 75 = FORTEMENT_SOUS_EVALUEE
      /\ conclure 74.9 = SOUS_EVALUEE
      /\ conclure 60 = SOUS_EVALUEE
      /\ conclure 59.9 = VALORISATION_EQUITABLE
      /\ conclure 40 = VALORISATION_EQUITABLE
      /\ conclure 39.9 = POSSIBLEMENT_SUREVALUEE
      /\ conclure 25 = POSSIBLEMENT_SUREVALUEE
      /\ conclure 24.9 = SUREVALUEE).
Proof.
  split; [|split; [|split; [|split; [|split; [|split]]]]].
  - intros H. unfold conclure. now rewrite H.
  - intros H60 H75. unfold conclure.
    now rewrite (flt_not_fge _ _ H75), H60.
  - intros H40 H60. unfold conclure.
    rewrite (flt_exclut_fge s 60 75 H60 eq_refl).
    now rewrite (flt_not_fge _ _ H60), H40.
  - intros H25 H40. unfold conclure.
    rewrite (flt_exclut_fge s 40 75 H40 eq_refl).
    rewrite (flt_exclut_fge s 40 60 H40 eq_refl).
    now rewrite (flt_not_fge _ _ H40), H25.
  - intros H25. unfold conclure.
    rewrite (flt_exclut_fge s 25 75 H25 eq_refl).
    rewrite (flt_exclut_fge s 25 60 H25 eq_refl).
    rewrite (flt_exclut_fge s 25 40 H25 eq_refl).
    now rewrite (flt_not_fge _ _ H25).
  - intros H0 _. apply fle_refl_r in H0.
    destruct (fge_or_flt s 75 H0 eq_refl) as [H|H75]; [now left|right].
    destruct (fge_or_flt s 60 H0 eq_refl) as [H|H60]; [now left|right].
    destruct (fge_or_flt s 40 H0 eq_refl) as [H|H40]; [now left|right].
    destruct (fge_or_flt s 25 H0 eq_refl) as [H|H25]; [now left|now right].
  - repeat split.
Qed.

End Verdict.

Lemma C4_temoin :
  conclure 62.5 = SOUS_EVALUEE /\ conclure 12.5 = SUREVALUEE.
Proof.
  destruct (C4_paliers_du_verdict 62.5) as (_ & H & _).
  destruct (C4_paliers_du_verdict 12.5) as (_ & _ & _ & _ & H' & _).
  exact (conj (H eq_refl eq_refl) (H' eq_refl)).
Defined.

(* ================================================================= *)
(** * The weighted score *)

Section ScorePondere.

Local Open Scope float_scope.

Import Atteignables.

Lemma appartient_In (x : float) (t : arbre) :
  appartient x t = true -> In x (elements t).
Proof.
  induction t as [|g IHg y d IHd]; simpl; [discriminate|].
  destruct (Leibniz.eqb x y) eqn:E.
  - apply Leibniz.eqb_spec in E. subst y. intros _.
    apply in_or_app. right. now left.
  - destruct (x <? y); intros H; apply in_or_app.
    + left. now apply IHg.
    + right. right. now apply IHd.
Qed.

Lemma score_possible (s : Z) : (0 <= s <= 100)%Z -> In s scores_possibles.
Proof.
  intros H. unfold scores_possibles. apply in_map_iff.
  exists (Z.to_nat s). split; [lia|]. apply in_seq. lia.
Qed.

Lemma clos_correct (w : float) (src dst : arbre) :
  clos w src dst = true ->
  forall a s, In a (elements src) -> (0 <= s <= 100)%Z ->
              In (a + terme w s) (elements dst).
Proof.
  unfold clos. rewrite forallb_forall. intros H a s Ha Hs.
  specialize (H a Ha). rewrite forallb_forall in H.
  now apply appartient_In, H, score_possible.
Qed.

Lemma sommes_1_complet (s : Z) :
  (0 <= s <= 100)%Z -> In (terme poids_pe s) (elements sommes_1).
Proof.
  assert (H : forallb (fun s => appartient (terme poids_pe s) sommes_1)
                      scores_possibles = true) by (vm_compute; reflexivity).
  rewrite forallb_forall in H. intros Hs.
  now apply appartient_In, H, score_possible.
Qed.

Lemma clos_1_2 : clos poids_pb sommes_1 sommes_2 = true.
Proof. vm_compute. reflexivity. Qed.

Lemma clos_2_3 : clos poids_peg sommes_2 sommes_3 = true.
Proof. vm_compute. reflexivity. Qed.

Lemma clos_3_4 : clos poids_croissance sommes_3 sommes_4 = true.
Proof. vm_compute. reflexivity. Qed.

Lemma clos_4_5 : clos poids_endettement sommes_4 sommes_5 = true.
Proof. vm_compute. reflexivity. Qed.

Lemma sommes_5_bornees :
  forallb (fun x => fle 0 x && fle x 100) (elements sommes_5) = true.
Proof. vm_compute. reflexivity. Qed.

(** Every weighted sum of five integer scores of [0, 100] is one of the
    floats of [sommes_5]. *)
Lemma score_pondere_atteint (a b c d e : Z) :
  (0 <= a <= 100)%Z -> (0 <= b <= 100)%Z -> (0 <= c <= 100)%Z ->
  (0 <= d <= 100)%Z -> (0 <= e <= 100)%Z ->
  In (score_pondere a b c d e) (elements sommes_5).
Proof.
  intros Ha Hb Hc Hd He. unfold score_pondere.
  apply (clos_correct _ _ _ clos_4_5); [|exact He].
  apply (clos_correct _ _ _ clos_3_4); [|exact Hd].
  apply (clos_correct _ _ _ clos_2_3); [|exact Hc].
  apply (clos_correct _ _ _ clos_1_2); [|exact Hb].
  now apply sommes_1_complet.
Qed.

Lemma score_pondere_borne (a b c d e : Z) :
  (0 <= a <= 100)%Z -> (0 <= b <= 100)%Z -> (0 <= c <= 100)%Z ->
  (0 <= d <= 100)%Z -> (0 <= e <= 100)%Z ->
  fle 0 (score_pondere a b c d e) = true
  /\ fle (score_pondere a b c d e) 100 = true.
Proof.
  intros Ha Hb Hc Hd He.
  pose proof sommes_5_bornees as H. rewrite forallb_forall in H.
  specialize (H _ (score_pondere_atteint a b c d e Ha Hb Hc Hd He)).
  now apply andb_true_iff in H.
Qed.

(** The scores of the five ladders are integers of [0, 100]. *)
Lemma scores_des_grilles (x : float) (refs : References) :
  (0 <= fst (evaluer_ratio_pe x refs) <= 100
   /\ 0 <= fst (evaluer_ratio_pb x refs) <= 100
   /\ 0 <= fst (evaluer_ratio_peg x) <= 100
   /\ 0 <= fst (evaluer_croissance x refs) <= 100
   /\ 0 <= fst (evaluer_endettement x) <= 100)%Z.
Proof.
  unfold evaluer_ratio_pe, evaluer_ratio_pb, evaluer_ratio_peg,
    evaluer_croissance, evaluer_endettement.
  repeat split;
    repeat match goal with
           | |- context [if ?c then _ else _] => destruct c
           end; simpl; lia.
Qed.

(** C3. The final score of every analysis is the weighted sum of its five
    scores, with weights 0.25 for P/E, 0.20 for P/B, 0.25 for PEG, 0.20 for
    growth and 0.10 for leverage, taken in that order; the weights are the
    floats nearest to 25, 20, 25, 20 and 10 hundredths, which add up to
    100 hundredths; and whenever the five scores are integers of [0, 100]
    the final score is within [0, 100]. *)
Theorem C3_score_final_pondere :
  (forall donnees, exists res,
      analyser_entreprise donnees = Ret res
      /\ s_final (scores res)
         = float_of_int (s_pe (scores res)) * 0.25
           + float_of_int (s_pb (scores res)) * 0.20
           + float_of_int (s_peg (scores res)) * 0.25
           + float_of_int (s_croissance (scores res)) * 0.20
           + float_of_int (s_endettement (scores res)) * 0.10)
  /\ (map (fun n => float_of_int n / float_of_int 100) Spec.poids_centiemes
      = [poids_pe; poids_pb; poids_peg; poids_croissance; poids_endettement]
      /\ fold_right Z.add 0%Z Spec.poids_centiemes = 100%Z)
  /\ (forall a b c d e : Z,
         (0 <= a <= 100)%Z -> (0 <= b <= 100)%Z -> (0 <= c <= 100)%Z ->
         (0 <= d <= 100)%Z -> (0 <= e <= 100)%Z ->
         fle 0 (score_pondere a b c d e) = true
         /\ fle (score_pondere a b c d e) 100 = true).
Proof.
  split; [|split].
  - intros donnees.
    destruct (analyser_entreprise_ret donnees)
      as (res & Hres & _ & _ & _ & _ & _ & _ & _ & Hf & _).
    exists res. split; [exact Hres|]. exact Hf.
  - split; reflexivity.
  - exact score_pondere_borne.
Qed.

End ScorePondere.

Lemma C3_temoin :
  fle 0 (score_pondere 90 85 95 80 60) = true
  /\ fle (score_pondere 90 85 95 80 60) 100 = true.
Proof.
  destruct C3_score_final_pondere as (_ & _ & H).
  apply H; lia.
Defined.

(** The final score of every analysis is within [0, 100]. *)
Lemma score_final_borne (donnees : DonneesEntreprise) :
  exists res,
    analyser_entreprise donnees = Ret res
    /\ fle 0 (s_final (scores res)) = true
    /\ fle (s_final (scores res)) 100 = true.
Proof.
  destruct (analyser_entreprise_ret donnees)
    as (res & Hres & _ & H1 & H2 & H3 & H4 & H5 & _ & Hf & _).
  exists res. split; [exact Hres|]. rewrite Hf, H1, H2, H3, H4, H5.
  apply score_pondere_borne.
  - apply (scores_des_grilles _ _).
  - apply (proj2 (scores_des_grilles _ _)).
  - apply (proj2 (proj2 (scores_des_grilles _ (obtenir_references ""%string)))).
  - apply (proj2 (proj2 (proj2 (scores_des_grilles _ _)))).
  - apply (proj2 (proj2 (proj2 (proj2
             (scores_des_grilles _ (obtenir_references ""%string)))))).
Qed.

(* ================================================================= *)
(** * Coercion of the provider's text *)

Section Coercion.

Import Recuperateur.
Local Open Scope string_scope.

Variable float_ : string -> exc float.

Lemma convertir_valeur_cas (valeur_str : string) :
  convertir_valeur float_ valeur_str = Ret 0%float
  \/ exists v, float_ valeur_str = Ret v
               /\ convertir_valeur float_ valeur_str = Ret v.
Proof.
  unfold convertir_valeur.
  destruct (negb (truthy valeur_str) || (valeur_str =? "None")
            || (valeur_str =? "-")); [now left|].
  destruct (float_ valeur_str) as [v|e]; [right; now exists v | now left].
Qed.

Lemma convertir_valeur_ret (valeur_str : string) :
  convertir_valeur float_ valeur_str = Ret (Signes.valeur float_ valeur_str).
Proof.
  unfold Signes.valeur.
  destruct (convertir_valeur_cas valeur_str) as [H|(v & _ & H)];
    now rewrite H.
Qed.

(** C7. [convertir_valeur] is total: for every text it returns a float and
    does not raise, whatever the builtin [float] does on that text; the
    empty text, "None" and "-" give exactly 0.0, and so does every text on
    which [float] raises. *)
Theorem C7_convertir_valeur_totale (valeur_str : string) :
  (exists v, convertir_valeur float_ valeur_str = Ret v)
  /\ convertir_valeur float_ "" = Ret 0%float
  /\ convertir_valeur float_ "None" = Ret 0%float
  /\ convertir_valeur float_ "-" = Ret 0%float
  /\ (forall e, float_ valeur_str = Raise e ->
                convertir_valeur float_ valeur_str = Ret 0%float).
Proof.
  split; [|repeat split].
  - exists (Signes.valeur float_ valeur_str). apply convertir_valeur_ret.
  - intros e H.
    destruct (convertir_valeur_cas valeur_str) as [H0|(v & Hv & _)];
      [exact H0 | congruence].
Qed.

End Coercion.

Lemma C7_temoin :
  Recuperateur.convertir_valeur PyBuiltin.float_ "N/A" = Ret 0%float
  /\ Recuperateur.convertir_valeur PyBuiltin.float_ "1,5" = Ret 0%float.
Proof.
  split.
  - exact (proj2 (proj2 (proj2 (proj2
             (C7_convertir_valeur_totale PyBuiltin.float_ "N/A"))))
           ValueError eq_refl).
  - exact (proj2 (proj2 (proj2 (proj2
             (C7_convertir_valeur_totale PyBuiltin.float_ "1,5"))))
           ValueError eq_refl).
Defined.

(* ================================================================= *)
(** * Rescaling to millions keeps the sign *)

Section Millions.

Lemma iter_pos_invariant {A : Type} (P : A -> Prop) (f : A -> A) :
  (forall x, P x -> P (f x)) ->
  forall n x, P x -> P (iter_pos f n x).
Proof.
  intros Hf. induction n as [n IH|n IH|]; simpl; intros x Hx; auto.
Qed.

Lemma shr_1_positif (mrs : shr_record) :
  (0 <= shr_m mrs)%Z -> (0 <= shr_m (shr_1 mrs))%Z.
Proof.
  destruct mrs as [m r s]. destruct m as [|[p|p|]|[p|p|]]; simpl; lia.
Qed.

Lemma shr_fexp_positif (m e : Z) (l : location) :
  (0 <= m)%Z -> (0 <= shr_m (fst (shr_fexp prec emax m e l)))%Z.
Proof.
  intros Hm. unfold shr_fexp, shr.
  assert (H0 : (0 <= shr_m (shr_record_of_loc m l))%Z)
    by (destruct l as [|[]]; exact Hm).
  destruct (fexp prec emax (Zdigits2 m + e) - e)%Z; simpl; auto.
  apply (iter_pos_invariant (fun r => 0 <= shr_m r)%Z); auto.
  apply shr_1_positif.
Qed.

Lemma round_nearest_even_positif (m : Z) (l : location) :
  (0 <= m)%Z -> (0 <= round_nearest_even m l)%Z.
Proof.
  intros Hm. destruct l as [|[]]; simpl; try lia.
  destruct (Z.even m); lia.
Qed.

(** Rounding a mantissa that is not negative gives a number that is not
    negative, and not a NaN. *)
Lemma binary_round_aux_positif (mx ex : Z) (lx : location) :
  (0 <= mx)%Z ->
  SFleb (S754_zero false) (binary_round_aux prec emax false mx ex lx) = true.
Proof.
  intros Hm. unfold binary_round_aux.
  pose proof (shr_fexp_positif mx ex lx Hm) as H1.
  destruct (shr_fexp prec emax mx ex lx) as [mrs' e']. simpl in H1.
  pose proof (shr_fexp_positif _ e' loc_Exact
                (round_nearest_even_positif _ (loc_of_shr_record mrs') H1))
    as H2.
  destruct (shr_fexp prec emax _ e' loc_Exact) as [mrs'' e'']. simpl in H2.
  destruct (shr_m mrs'') as [|p|p]; [reflexivity| |lia].
  destruct (e'' <=? emax - prec)%Z; reflexivity.
Qed.

Lemma SFdiv_core_binary_positif (m1 e1 m2 e2 : Z) :
  (0 <= m1)%Z -> (0 < m2)%Z ->
  (0 <= fst (fst (SFdiv_core_binary prec emax m1 e1 m2 e2)))%Z.
Proof.
  intros H1 H2. unfold SFdiv_core_binary.
  set (s := (e1 - e2 - _)%Z).
  set (m' := match s with 0%Z => m1 | Z.pos _ => _ | Z.neg _ => _ end).
  assert (Hm' : (0 <= m')%Z).
  { unfold m'. destruct s; try lia.
    change IntDef.Z.shiftl with Z.shiftl. now apply Z.shiftl_nonneg. }
  change IntDef.Z.div_eucl with Z.div_eucl.
  pose proof (Z.div_pos m' m2 Hm' H2) as Hq. unfold Z.div in Hq.
  destruct (Z.div_eucl m' m2) as [q r]. exact Hq.
Qed.

Lemma fle_0_div_un_million (x : float) :
  fle 0 x = true -> fle 0 (x / Recuperateur.un_million) = true.
Proof.
  unfold fle. rewrite !FloatAxioms.leb_spec, div_spec.
  change (Prim2SF 0) with (S754_zero false).
  change (Prim2SF Recuperateur.un_million)
    with (S754_finite false 8589934592000000 (-33)).
  destruct (Prim2SF x) as [s|s| |s m e]; try (destruct s); try discriminate;
    try reflexivity.
  intros _. unfold SF64div, SFdiv.
  pose proof (SFdiv_core_binary_positif (Z.pos m) e
                (Z.pos 8589934592000000) (-33)) as H.
  destruct (SFdiv_core_binary prec emax (Z.pos m) e
              (Z.pos 8589934592000000) (-33)) as [[mz ez] lz].
  apply binary_round_aux_positif. simpl in H. apply H; lia.
Qed.

Lemma truediv_un_million (x : float) :
  truediv x Recuperateur.un_million = Ret (x / Recuperateur.un_million)%float.
Proof. reflexivity. Qed.

End Millions.

(* ================================================================= *)
(** * Signs of the fields of a constructed record *)

(** C9, refuted as stated: a provider that reports a loss per share of -1.5
    yields a record whose EPS is negative, and a price of -5 typed at the
    manual entry yields a record whose price is negative. *)
Lemma C9_contre_exemple :
  (exists d,
      Recuperateur.recuperer_donnees_entreprise PyBuiltin.float_ "Acme"
        Exemples.reponses_perte = Some d
      /\ benefice_par_action d = (-1.5)%float
      /\ flt (benefice_par_action d) 0 = true
      /\ Signes.champs_positifs d = false)
  /\ (exists d,
         Saisie.saisir_donnees_entreprise PyBuiltin.float_
           Exemples.lignes_prix_negatif = Ret (d, [])
         /\ prix_action d = (-5)%float
         /\ flt (prix_action d) 0 = true
         /\ Signes.champs_positifs d = false).
Proof.
  split; eexists; (split; [vm_compute; reflexivity|]); repeat split.
Qed.

Section SignesConserves.

Import Recuperateur Saisie Signes.
Local Open Scope string_scope.

Variable float_ : string -> exc float.

Lemma wp_bind {A B : Type} (c : exc A) (k : A -> exc B) (P : B -> Prop) :
  wp c (fun a => wp (k a) P) -> wp (bind c k) P.
Proof. destruct c; simpl; auto. Qed.

Lemma wp_convertir_valeur (texte : string) (P : float -> Prop) :
  P (valeur float_ texte) -> wp (convertir_valeur float_ texte) P.
Proof. now rewrite convertir_valeur_ret. Qed.

Lemma wp_truediv_un_million (x : float) (P : float -> Prop) :
  P (x / un_million)%float -> wp (truediv x un_million) P.
Proof. now rewrite truediv_un_million. Qed.

(** The estimate of the growth rate returns. *)
Lemma wp_croissance (pe_ratio peg_ratio : float) (P : float -> Prop) :
  (forall g, P g) ->
  wp (if fgt peg_ratio 0 && fgt pe_ratio 0
      then if negb (feq peg_ratio 0)
           then truediv pe_ratio peg_ratio
           else Ret 10.0%float
      else Ret 10.0%float) P.
Proof.
  intros H. destruct (_ && _); [|apply H].
  unfold truediv. fold (feq peg_ratio 0).
  destruct (feq peg_ratio 0); apply H.
Qed.

Ltac pas :=
  cbv beta;
  lazymatch goal with
  | |- wp (bind _ _) _ => apply wp_bind
  | |- wp (convertir_valeur _ _) _ => apply wp_convertir_valeur
  | |- wp (truediv _ un_million) _ => apply wp_truediv_un_million
  | |- wp (if fgt _ _ && fgt _ _ then _ else _) _ =>
      apply wp_croissance; intros ?
  | |- wp (if ?c then _ else _) _ => destruct c
  | |- wp (Ret _) _ => cbn [wp]
  end.

Ltac positif :=
  first [ assumption
        | apply fle_0_div_un_million; assumption
        | reflexivity ].

(** Given sources that are not negative, the [try] block of the fetcher
    returns a record whose fields are not negative. *)
Lemma extraire_positif (nom_entreprise symbole : string)
    (apercu : dict string)
    (revenus_data bilan_data : option (list (dict string))) :
  sources_positives float_
    {| symbole_trouve := Some symbole; apercu_recu := Some apercu;
       revenus_recus := revenus_data; bilan_recu := bilan_data |} = true ->
  wp (extraire float_ nom_entreprise symbole apercu revenus_data bilan_data)
     (fun d => champs_positifs d = true).
Proof.
  unfold sources_positives, champ_positif. simpl.
  rewrite !andb_true_iff.
  intros ((((((Hm & Hc) & He) & Hb) & Hk) & Hr) & Hd).
  unfold extraire. cbv zeta.
  destruct revenus_data as [[|r0 [|r1 rs]]|];
    destruct bilan_data as [[|b0 bs]|];
    repeat match goal with
           | H : _ && _ = true |- _ => apply andb_true_iff in H; destruct H
           end.
  all: repeat pas.
  all: unfold champs_positifs; simpl.
  all: rewrite !andb_true_iff; repeat split; positif.
Qed.

(** The fetcher returns a record as soon as the symbol search and the
    overview succeed, and the signs of its sources are those of its
    fields. *)
Lemma recuperer_positif (nom_entreprise : string) (reponses : Reponses)
    (d : DonneesEntreprise) :
  sources_positives float_ reponses = true ->
  recuperer_donnees_entreprise float_ nom_entreprise reponses = Some d ->
  champs_positifs d = true.
Proof.
  destruct reponses as [[symbole|] [apercu|] revenus bilan];
    unfold recuperer_donnees_entreprise; simpl; try discriminate;
    try (destruct (truthy symbole); discriminate).
  intros Hs. destruct (truthy symbole); simpl; [|discriminate].
  destruct apercu as [|champ apercu]; [discriminate|].
  pose proof (extraire_positif nom_entreprise symbole (champ :: apercu)
                revenus bilan Hs) as H.
  destruct (extraire _ _ _ _ _ _) as [d'|]; [|contradiction].
  simpl in H. intros E. injection E as <-. exact H.
Qed.

(** The manual entry copies the numbers typed. *)
Lemma saisir_positif (lignes reste : list string) (d : DonneesEntreprise) :
  lignes_positives float_ lignes = true ->
  saisir_donnees_entreprise float_ lignes = Ret (d, reste) ->
  champs_positifs d = true.
Proof.
  destruct lignes as [|l0 [|l1 [|l2 [|l3 [|l4 [|l5 [|l6 [|l7 [|l8 [|l9
    [|l10 [|l11 r]]]]]]]]]]]]; try discriminate;
    unfold lignes_positives, nombre_positif;
    cbv [saisir_donnees_entreprise puis float_input input lever ret];
    destruct (float_ l2); cbv beta iota; try (intros _ E; discriminate E);
    destruct (float_ l3); cbv beta iota; try (intros _ E; discriminate E);
    destruct (float_ l4); cbv beta iota; try (intros _ E; discriminate E);
    destruct (float_ l5); cbv beta iota; try (intros _ E; discriminate E);
    destruct (float_ l6); cbv beta iota; try (intros _ E; discriminate E);
    destruct (float_ l7); cbv beta iota; try (intros _ E; discriminate E);
    destruct (float_ l8); cbv beta iota; try (intros _ E; discriminate E);
    destruct (float_ l9); cbv beta iota; try (intros _ E; discriminate E);
    destruct (float_ l10); cbv beta iota; try (intros _ E; discriminate E).
  intros H E. injection E as <- _. exact H.
Qed.

(** C9, amended: the construction of a record introduces no negative
    field.  When every number the fetcher reads from the provider for
    price, EPS, book value, market capitalization, revenues, debt and
    equity is not negative, none of these fields of the record it returns is
    negative; and when every number typed at the manual entry for these
    fields is not negative, none of these fields of the record is negative.
    Neither path checks a sign. *)
Theorem C9_signes_conserves :
  (forall nom_entreprise reponses d,
      sources_positives float_ reponses = true ->
      recuperer_donnees_entreprise float_ nom_entreprise reponses = Some d ->
      champs_positifs d = true)
  /\ (forall lignes reste d,
         lignes_positives float_ lignes = true ->
         saisir_donnees_entreprise float_ lignes = Ret (d, reste) ->
         champs_positifs d = true).
Proof.
  split.
  - exact recuperer_positif.
  - intros lignes reste d. apply saisir_positif.
Qed.

End SignesConserves.

Lemma C9_temoin :
  (exists d,
      Recuperateur.recuperer_donnees_entreprise PyBuiltin.float_ "Acme"
        Exemples.reponses_saines = Some d
      /\ Signes.champs_positifs d = true)
  /\ (exists d,
         Saisie.saisir_donnees_entreprise PyBuiltin.float_
           Exemples.lignes_saines = Ret (d, [])
         /\ Signes.champs_positifs d = true).
Proof.
  destruct (C9_signes_conserves PyBuiltin.float_) as (Hapi & Hsaisie).
  split.
  - eexists. split; [vm_compute; reflexivity|].
    eapply (Hapi "Acme"%string Exemples.reponses_saines);
      vm_compute; reflexivity.
  - eexists. split; [vm_compute; reflexivity|].
    eapply (Hsaisie Exemples.lignes_saines []);
      vm_compute; reflexivity.
Defined.

(* ================================================================= *)
(** * The model at work *)

Example float_exemples :
  PyBuiltin.float_ "0.1" = Ret 0.1%float
  /\ PyBuiltin.float_ "-1.5" = Ret (-1.5)%float
  /\ PyBuiltin.float_ " 2500000000 " = Ret 2500000000%float
  /\ PyBuiltin.float_ "1_000.5e-1" = Ret 100.05%float
  /\ PyBuiltin.float_ "1e309" = Ret infinity
  /\ PyBuiltin.float_ "-Infinity" = Ret neg_infinity
  /\ PyBuiltin.float_ "" = Raise ValueError
  /\ PyBuiltin.float_ "None" = Raise ValueError
  /\ PyBuiltin.float_ "-" = Raise ValueError
  /\ PyBuiltin.float_ "12,5" = Raise ValueError
  /\ PyBuiltin.float_ "1__0" = Raise ValueError.
Proof. repeat split. Qed.

Example convertir_valeur_exemples :
  Recuperateur.convertir_valeur PyBuiltin.float_ "34.5" = Ret 34.5%float
  /\ Recuperateur.convertir_valeur PyBuiltin.float_ "None" = Ret 0%float
  /\ Recuperateur.convertir_valeur PyBuiltin.float_ "n/a" = Ret 0%float.
Proof. repeat split. Qed.

Example secteurs_exemples :
  Recuperateur.detecter_secteur "Technology" = "technologie"%string
  /\ Recuperateur.detecter_secteur "Aerospace" = "defaut"%string
  /\ obtenir_references "INDUSTRIE"
     = {| pe_moyen := 16; pb_moyen := 2.5; croissance_moyenne := 6 |}
  /\ obtenir_references "aerospatial" = references_defaut.
Proof. repeat split. Qed.

(* ================================================================= *)
(** * More on float comparisons *)

Section AutresComparaisons.

Lemma fle_flt_trans (x y z : float) :
  fle x y = true -> flt y z = true -> flt x z = true.
Proof.
  unfold fle. rewrite FloatAxioms.leb_spec. unfold SFleb.
  destruct (SFcompare (Prim2SF x) (Prim2SF y)) as [[]|] eqn:E1;
    try discriminate; intros _.
  - unfold flt. rewrite !FloatAxioms.ltb_spec. unfold SFltb.
    now rewrite (SFcompare_eq_l _ _ (Prim2SF z) E1).
  - apply flt_trans. unfold flt. rewrite FloatAxioms.ltb_spec.
    unfold SFltb. now rewrite E1.
Qed.

Lemma fle_trans (x y z : float) :
  fle x y = true -> fle y z = true -> fle x z = true.
Proof.
  unfold fle. rewrite !FloatAxioms.leb_spec. unfold SFleb.
  destruct (SFcompare (Prim2SF x) (Prim2SF y)) as [[]|] eqn:E1;
    try discriminate; intros _.
  - now rewrite (SFcompare_eq_l _ _ (Prim2SF z) E1).
  - destruct (SFcompare (Prim2SF y) (Prim2SF z)) as [[]|] eqn:E2;
      try discriminate; intros _.
    + now rewrite <- (SFcompare_eq_r (Prim2SF x) _ _ E2), E1.
    + now rewrite (SFcompare_lt_trans _ _ _ E1 E2).
Qed.

(** Only [float('inf')] is at or above [float('inf')]. *)
Lemma fle_inf_feq (y : float) : fle inf y = true -> feq y inf = true.
Proof.
  unfold fle, feq. rewrite FloatAxioms.leb_spec, FloatAxioms.eqb_spec.
  change (Prim2SF inf) with (S754_infinity false).
  unfold SFleb, SFeqb.
  destruct (Prim2SF y) as [s|s| |s m e]; try destruct s;
    try discriminate; reflexivity.
Qed.

(** Above an undefined ratio there is only the undefined ratio. *)
Lemma feq_inf_monte (x y : float) :
  feq x inf = true -> fle x y = true -> feq y inf = true.
Proof.
  intros Hx Hxy. apply fle_inf_feq.
  revert Hx Hxy. unfold feq, fle.
  rewrite FloatAxioms.eqb_spec, !FloatAxioms.leb_spec. unfold SFeqb, SFleb.
  destruct (SFcompare (Prim2SF x) (Prim2SF inf)) as [[]|] eqn:E;
    try discriminate.
  intros _. now rewrite (SFcompare_eq_l _ _ (Prim2SF y) E).
Qed.

(** A NaN is on neither side of any comparison. *)
Lemma nan_incomparable (x y : float) :
  Lacunes.est_nan x = true ->
  flt x y = false /\ flt y x = false /\ fle x y = false
  /\ fle y x = false /\ feq x y = false.
Proof.
  unfold Lacunes.est_nan, feq, flt, fle.
  rewrite !FloatAxioms.eqb_spec, !FloatAxioms.ltb_spec,
    !FloatAxioms.leb_spec.
  unfold SFeqb, SFltb, SFleb.
  destruct (Prim2SF x) as [sx|sx| |sx mx ex].
  - discriminate.
  - destruct sx; discriminate.
  - intros _. destruct (Prim2SF y); repeat split.
  - rewrite SFcompare_finis.
    pose proof (compare_finis_spec ex mx ex mx) as S.
    destruct (compare_finis ex mx ex mx); try lia.
    destruct sx; discriminate.
Qed.

End AutresComparaisons.

(* ================================================================= *)
(** * The ladders are monotone *)

Section Monotonie.

Variables x y : float.
Hypothesis Hxy : fle x y = true.

Ltac descendre :=
  repeat match goal with
         | |- context [flt y ?t] =>
             let E := fresh "E" in
             destruct (flt y t) eqn:E;
             [rewrite (fle_flt_trans x y t Hxy E)|]
         end;
  repeat match goal with
         | |- context [if ?c then _ else _] => destruct c
         end;
  simpl; lia.

Lemma evaluer_ratio_pb_decroit (refs : References) :
  (fst (evaluer_ratio_pb y refs) <= fst (evaluer_ratio_pb x refs))%Z.
Proof. unfold evaluer_ratio_pb. descendre. Qed.

Lemma evaluer_ratio_pe_decroit (refs : References) :
  (fst (evaluer_ratio_pe y refs) <= fst (evaluer_ratio_pe x refs))%Z.
Proof.
  unfold evaluer_ratio_pe.
  destruct (feq y inf) eqn:Ey.
  - repeat match goal with
           | |- context [if ?c then _ else _] => destruct c
           end; simpl; lia.
  - destruct (feq x inf) eqn:Ex.
    + rewrite (feq_inf_monte x y Ex Hxy) in Ey. discriminate.
    + descendre.
Qed.

Lemma evaluer_endettement_decroit :
  (fst (evaluer_endettement y) <= fst (evaluer_endettement x))%Z.
Proof.
  unfold evaluer_endettement.
  destruct (feq y inf) eqn:Ey.
  - repeat match goal with
           | |- context [if ?c then _ else _] => destruct c
           end; simpl; lia.
  - destruct (feq x inf) eqn:Ex.
    + rewrite (feq_inf_monte x y Ex Hxy) in Ey. discriminate.
    + descendre.
Qed.

Lemma evaluer_ratio_peg_decroit :
  feq y inf = false ->
  (fst (evaluer_ratio_peg y) <= fst (evaluer_ratio_peg x))%Z.
Proof.
  intros Ey. unfold evaluer_ratio_peg. rewrite Ey.
  destruct (feq x inf) eqn:Ex.
  - rewrite (feq_inf_monte x y Ex Hxy) in Ey. discriminate.
  - descendre.
Qed.

Lemma evaluer_croissance_croit (refs : References) :
  (fst (evaluer_croissance x refs) <= fst (evaluer_croissance y refs))%Z.
Proof.
  unfold evaluer_croissance, fgt. fold (flt (croissance_moyenne refs * 1.5) x)
    (flt (croissance_moyenne refs) x) (flt 0 x).
  fold (flt (croissance_moyenne refs * 1.5) y)
    (flt (croissance_moyenne refs) y) (flt 0 y).
  repeat match goal with
         | |- context [flt ?t x] =>
             let E := fresh "E" in
             destruct (flt t x) eqn:E;
             [rewrite (flt_fle_trans t x y E Hxy)|]
         end;
  repeat match goal with
         | |- context [if ?c then _ else _] => destruct c
         end;
  simpl; lia.
Qed.

End Monotonie.

(** X1. A larger ratio never scores better on the P/E, P/B and leverage
    ladders, and a larger revenue growth never scores worse, whatever the
    sector references; the undefined ratio [float('inf')] is the largest
    and scores least on the P/E and leverage ladders. *)
Theorem grilles_monotones (x y : float) (refs : References) :
  fle x y = true ->
  (fst (evaluer_ratio_pe y refs) <= fst (evaluer_ratio_pe x refs))%Z
  /\ (fst (evaluer_ratio_pb y refs) <= fst (evaluer_ratio_pb x refs))%Z
  /\ (fst (evaluer_endettement y) <= fst (evaluer_endettement x))%Z
  /\ (fst (evaluer_croissance x refs) <= fst (evaluer_croissance y refs))%Z.
Proof.
  intros Hxy. repeat split.
  - now apply evaluer_ratio_pe_decroit.
  - now apply evaluer_ratio_pb_decroit.
  - now apply evaluer_endettement_decroit.
  - now apply evaluer_croissance_croit.
Qed.

Lemma grilles_monotones_temoin :
  (fst (evaluer_ratio_pe inf references_defaut)
   <= fst (evaluer_ratio_pe 12.5 references_defaut))%Z
  /\ (fst (evaluer_croissance 12.5 references_defaut)
      <= fst (evaluer_croissance inf references_defaut))%Z.
Proof.
  destruct (grilles_monotones 12.5 inf references_defaut eq_refl)
    as (H1 & _ & _ & H4).
  exact (conj H1 H4).
Defined.

(** X2. On the PEG ladder a larger defined PEG never scores better, and
    every defined PEG of 2.0 or more scores 10; but the undefined PEG,
    [float('inf')], scores 20: the ladder rates "not computable" above
    "very high". *)
Theorem grille_peg_sauf_infini (x y : float) :
  (fle x y = true -> feq y inf = false ->
   (fst (evaluer_ratio_peg y) <= fst (evaluer_ratio_peg x))%Z)
  /\ (fle 2 x = true -> feq x inf = false ->
      fst (evaluer_ratio_peg x) = 10%Z)
  /\ fst (evaluer_ratio_peg inf) = 20%Z.
Proof.
  split; [|split; [|reflexivity]].
  - intros Hxy Ey. now apply evaluer_ratio_peg_decroit.
  - intros H2 Ex. unfold evaluer_ratio_peg. rewrite Ex.
    assert (H : forall t, fle t 2 = true -> flt x t = false).
    { intros t Ht. destruct (flt x t) eqn:E; [|reflexivity].
      pose proof (flt_exclut_fge x t 2 E Ht) as H. unfold fge in H.
      unfold fle in H2. congruence. }
    now rewrite !H.
Qed.

Lemma grille_peg_sauf_infini_temoin :
  (fst (evaluer_ratio_peg 3) <= fst (evaluer_ratio_peg 0.75))%Z
  /\ fst (evaluer_ratio_peg 1e300) = 10%Z.
Proof.
  destruct (grille_peg_sauf_infini 0.75 3) as (H1 & _).
  destruct (grille_peg_sauf_infini 1e300 0) as (_ & H2 & _).
  exact (conj (H1 eq_refl eq_refl) (H2 eq_refl eq_refl)).
Defined.

(** X3. The verdict is monotone in the final score: a higher score never
    gives a worse verdict. *)
Theorem verdict_monotone (s1 s2 : float) :
  fle s1 s2 = true ->
  (Lacunes.rang (conclure s1) <= Lacunes.rang (conclure s2))%Z.
Proof.
  intros H. unfold conclure, fge.
  fold (fle 75 s1) (fle 60 s1) (fle 40 s1) (fle 25 s1).
  fold (fle 75 s2) (fle 60 s2) (fle 40 s2) (fle 25 s2).
  repeat match goal with
         | |- context [fle ?t s1] =>
             let E := fresh "E" in
             destruct (fle t s1) eqn:E;
             [rewrite (fle_trans t s1 s2 E H)|]
         end;
  repeat match goal with
         | |- context [if ?c then _ else _] => destruct c
         end;
  simpl; lia.
Qed.

Lemma verdict_monotone_temoin :
  (Lacunes.rang (conclure 39.9) <= Lacunes.rang (conclure 61))%Z.
Proof. exact (verdict_monotone 39.9 61 eq_refl). Defined.

(* ================================================================= *)
(** * The scale of the final score *)

Section Echelle.

Import Lacunes.

Ltac par_branche :=
  repeat match goal with
         | |- context [if ?c then _ else _] => destruct c
         end; simpl; tauto.

Lemma evaluer_ratio_pe_valeurs (x : float) (refs : References) :
  (feq x inf = true /\ fst (evaluer_ratio_pe x refs) = 0%Z)
  \/ (feq x inf = false
      /\ In (fst (evaluer_ratio_pe x refs)) scores_pe_definis).
Proof.
  unfold evaluer_ratio_pe, scores_pe_definis.
  destruct (feq x inf); [now left|right]. split; [reflexivity|par_branche].
Qed.

Lemma evaluer_ratio_pb_valeurs (x : float) (refs : References) :
  In (fst (evaluer_ratio_pb x refs)) scores_pb.
Proof. unfold evaluer_ratio_pb, scores_pb. par_branche. Qed.

Lemma evaluer_ratio_peg_valeurs (x : float) :
  In (fst (evaluer_ratio_peg x)) scores_peg.
Proof. unfold evaluer_ratio_peg, scores_peg. par_branche. Qed.

Lemma evaluer_croissance_valeurs (x : float) (refs : References) :
  In (fst (evaluer_croissance x refs)) scores_croissance.
Proof. unfold evaluer_croissance, scores_croissance. par_branche. Qed.

Lemma evaluer_endettement_valeurs (x : float) :
  In (fst (evaluer_endettement x)) scores_endettement.
Proof. unfold evaluer_endettement, scores_endettement. par_branche. Qed.

Lemma partout_correct (la lb lc ld le_ : list Z) (a b c d e : Z) :
  partout la lb lc ld le_ = true ->
  In a la -> In b lb -> In c lc -> In d ld -> In e le_ ->
  dans_l_echelle a b c d e = true.
Proof.
  unfold partout. intros H Ha Hb Hc Hd He.
  rewrite forallb_forall in H. specialize (H a Ha).
  rewrite forallb_forall in H. specialize (H b Hb).
  rewrite forallb_forall in H. specialize (H c Hc).
  rewrite forallb_forall in H. specialize (H d Hd).
  rewrite forallb_forall in H. exact (H e He).
Qed.

(** With an undefined P/E, which forces an undefined PEG. *)
Lemma echelle_sans_pe :
  partout [0%Z] scores_pb [20%Z] scores_croissance scores_endettement
  = true.
Proof. vm_compute. reflexivity. Qed.

(** With a defined P/E. *)
Lemma echelle_avec_pe :
  partout scores_pe_definis scores_pb scores_peg scores_croissance
          scores_endettement = true.
Proof. vm_compute. reflexivity. Qed.

(** X4. The final score of every analysis lies between 14.0 and 87.25, and
    both ends are reached: 14.0 by a company with no earnings, book value,
    prior revenue or equity, 87.25 by one in the top band of every ladder.
    No company scores 0 or 100. *)
Theorem echelle_du_score_final :
  (forall donnees, exists res,
      analyser_entreprise donnees = Ret res
      /\ fle 14 (s_final (scores res)) = true
      /\ fle (s_final (scores res)) 87.25 = true)
  /\ (exists res,
         analyser_entreprise Exemples.sans_benefices = Ret res
         /\ s_final (scores res) = 14%float)
  /\ (exists res,
         analyser_entreprise entreprise_ideale = Ret res
         /\ s_final (scores res) = 87.25%float).
Proof.
  split; [|split; eexists; (split; [vm_compute; reflexivity|reflexivity])].
  intros donnees.
  destruct (analyser_entreprise_ret donnees)
    as (res & Hres & _ & H1 & H2 & H3 & H4 & H5 & _ & Hf & _).
  exists res. split; [exact Hres|].
  apply andb_true_iff. rewrite Hf, H1, H2, H3, H4, H5.
  set (pe := Spec.pe _ _).
  fold (dans_l_echelle
          (fst (evaluer_ratio_pe pe (obtenir_references (secteur donnees))))
          (fst (evaluer_ratio_pb
                  (Spec.pb (prix_action donnees)
                           (valeur_comptable_par_action donnees))
                  (obtenir_references (secteur donnees))))
          (fst (evaluer_ratio_peg
                  (Spec.peg pe (croissance_benefices_prevue donnees))))
          (fst (evaluer_croissance
                  (Spec.croissance_revenus (revenus_actuels donnees)
                     (revenus_annee_precedente donnees))
                  (obtenir_references (secteur donnees))))
          (fst (evaluer_endettement
                  (Spec.endettement (dette_totale donnees)
                                    (capitaux_propres donnees))))).
  destruct (evaluer_ratio_pe_valeurs pe (obtenir_references (secteur donnees)))
    as [[Epe ->]|[Epe Hpe]].
  - unfold Spec.peg, Spec.est_indefini, Spec.indefini. rewrite Epe.
    simpl orb. cbv iota. rewrite evaluer_ratio_peg_inf. simpl fst.
    apply (partout_correct _ _ _ _ _ _ _ _ _ _ echelle_sans_pe);
      try (now left).
    + apply evaluer_ratio_pb_valeurs.
    + apply evaluer_croissance_valeurs.
    + apply evaluer_endettement_valeurs.
  - apply (partout_correct _ _ _ _ _ _ _ _ _ _ echelle_avec_pe).
    + exact Hpe.
    + apply evaluer_ratio_pb_valeurs.
    + apply evaluer_ratio_peg_valeurs.
    + apply evaluer_croissance_valeurs.
    + apply evaluer_endettement_valeurs.
Qed.

End Echelle.

(* ================================================================= *)
(** * What the fetcher puts in a record *)

Section Extraction.

Import Recuperateur Saisie Signes Lacunes Parcours.
Local Open Scope string_scope.

Variable float_ : string -> exc float.

(** The quotient of two positive floats is not below zero. *)
Lemma quotient_de_positifs (x y : float) :
  flt 0 x = true -> flt 0 y = true -> flt (x / y) 0 = false.
Proof.
  unfold flt. rewrite !FloatAxioms.ltb_spec, div_spec.
  change (Prim2SF 0) with (S754_zero false).
  unfold SFltb, SF64div.
  destruct (Prim2SF x) as [sx|sx| |sx mx ex]; try destruct sx;
    try discriminate;
    destruct (Prim2SF y) as [sy|sy| |sy my ey]; try destruct sy;
    try discriminate; try reflexivity.
  intros _ _. unfold SFdiv.
  pose proof (SFdiv_core_binary_positif (Z.pos mx) ex (Z.pos my) ey) as H.
  destruct (SFdiv_core_binary prec emax (Z.pos mx) ex (Z.pos my) ey)
    as [[mz ez] lz].
  simpl in H. assert (Hmz : (0 <= mz)%Z) by (apply H; lia).
  pose proof (binary_round_aux_positif mz ez lz Hmz) as Hr.
  simpl xorb. unfold SFleb in Hr.
  rewrite (SFcompare_antisym (S754_zero false)
             (binary_round_aux prec emax false mz ez lz)).
  destruct (SFcompare (S754_zero false) _) as [[]|]; simpl;
    try reflexivity; discriminate.
Qed.

(** The estimate of the growth rate returns a float that is not below
    zero. *)
Lemma wp_croissance_positive (pe_ratio peg_ratio : float)
    (P : float -> Prop) :
  (forall g, flt g 0 = false -> P g) ->
  wp (if fgt peg_ratio 0 && fgt pe_ratio 0
      then if negb (feq peg_ratio 0)
           then truediv pe_ratio peg_ratio
           else Ret 10.0%float
      else Ret 10.0%float) P.
Proof.
  intros H. destruct (fgt peg_ratio 0 && fgt pe_ratio 0) eqn:E;
    [|now apply H].
  apply andb_true_iff in E. destruct E as [E1 E2].
  unfold truediv. fold (feq peg_ratio 0).
  destruct (feq peg_ratio 0); simpl; [now apply H|].
  apply H. now apply quotient_de_positifs.
Qed.

Ltac avancer :=
  cbv beta;
  lazymatch goal with
  | |- wp (bind _ _) _ => apply wp_bind
  | |- wp (convertir_valeur _ _) _ => apply wp_convertir_valeur
  | |- wp (truediv _ un_million) _ => apply wp_truediv_un_million
  | |- wp (if fgt _ _ && fgt _ _ then _ else _) _ =>
      apply wp_croissance_positive; intros ? ?
  | |- wp (if ?c then _ else _) _ => destruct c eqn:?
  | |- wp (Ret _) _ => cbn [wp]
  end.

(** The [try] block of the fetcher never raises, and this is what its
    record holds. *)
Lemma extraire_champs (nom_entreprise sym : string)
    (apercu : dict string)
    (revenus_data bilan_data : option (list (dict string))) :
  wp (extraire float_ nom_entreprise sym apercu revenus_data bilan_data)
     (fun d =>
        nom d = get apercu "Name" nom_entreprise
        /\ symbole d = sym
        /\ secteur d = detecter_secteur (get apercu "Sector" "")
        /\ benefice_par_action d = valeur float_ (get apercu "EPS" "0")
        /\ valeur_comptable_par_action d
           = valeur float_ (get apercu "BookValue" "0")
        /\ prix_action d
           = (if feq (valeur float_ (get apercu "50DayMovingAverage" "0")) 0
              then valeur float_ (get apercu "PreviousClose" "100")
              else valeur float_ (get apercu "50DayMovingAverage" "0"))
        /\ flt (croissance_benefices_prevue d) 0 = false
        /\ (revenus_absents revenus_data = true ->
            revenus_actuels d = 0%float
            /\ revenus_annee_precedente d = 0%float)
        /\ (bilan_absent bilan_data = true ->
            dette_totale d = 0%float /\ capitaux_propres d = 0%float)
        /\ capitalisation_boursiere d
           = (valeur float_ (get apercu "MarketCapitalization" "0")
              / un_million)%float).
Proof.
  unfold extraire. cbv zeta.
  destruct revenus_data as [[|r0 [|r1 rs]]|];
    destruct bilan_data as [[|b0 bs]|].
  all: repeat avancer.
  all: cbn [nom symbole secteur benefice_par_action
            valeur_comptable_par_action prix_action
            croissance_benefices_prevue revenus_actuels
            revenus_annee_precedente dette_totale capitaux_propres
            capitalisation_boursiere fst snd revenus_absents bilan_absent].
  all: repeat match goal with
              | H : feq _ _ = _ |- _ => rewrite H
              end.
  all: repeat split; try assumption; try reflexivity; discriminate.
Qed.

End Extraction.

Section Recuperation.

Import Recuperateur Saisie Signes Lacunes Parcours.
Local Open Scope string_scope.

Variable float_ : string -> exc float.

(** What [recuperer_donnees_entreprise] returns, when it returns a
    record. *)
Lemma recuperer_cas (nom_entreprise : string) (reponses : Reponses) :
  if disponible reponses
  then exists sym apercu d,
      symbole_trouve reponses = Some sym
      /\ apercu_recu reponses = Some apercu
      /\ extraire float_ nom_entreprise sym apercu
           (revenus_recus reponses) (bilan_recu reponses) = Ret d
      /\ recuperer_donnees_entreprise float_ nom_entreprise reponses
         = Some d
  else recuperer_donnees_entreprise float_ nom_entreprise reponses = None.
Proof.
  destruct reponses as [[sym|] [[|champ apercu]|] revenus bilan];
    unfold disponible, recuperer_donnees_entreprise; simpl;
    try reflexivity; try (destruct (truthy sym); reflexivity).
  destruct (truthy sym); simpl; [|reflexivity].
  pose proof (extraire_champs float_ nom_entreprise sym (champ :: apercu)
                revenus bilan) as H.
  destruct (extraire float_ nom_entreprise sym (champ :: apercu) revenus
              bilan) as [d|] eqn:He; [|contradiction].
  exists sym, (champ :: apercu), d. repeat split. exact He.
Qed.



(** The growth ladder at 0, for the references of every sector. *)
Lemma evaluer_croissance_zero (s : string) :
  fst (evaluer_croissance 0 (obtenir_references s)) = 20%Z.
Proof.
  pattern (obtenir_references s). apply pour_toute_reference.
  repeat constructor.
Qed.

(** X7. A failed or short income statement and a failed or empty balance
    sheet do not abort the fetch; they are scored.  Without two annual
    reports both revenues of the record are 0, so the revenue growth is 0
    and scores 20, the band of negative growth; without a balance sheet
    debt and equity are 0, so the debt ratio is [float('inf')] and scores
    0. *)
Theorem donnees_absentes_notees (nom_entreprise : string)
    (reponses : Reponses) (d : DonneesEntreprise) :
  recuperer_donnees_entreprise float_ nom_entreprise reponses = Some d ->
  exists res,
    analyser_entreprise d = Ret res
    /\ (revenus_absents (revenus_recus reponses) = true ->
        revenus_actuels d = 0%float
        /\ revenus_annee_precedente d = 0%float
        /\ r_croissance_revenus (ratios res) = 0%float
        /\ s_croissance (scores res) = 20%Z)
    /\ (bilan_absent (bilan_recu reponses) = true ->
        dette_totale d = 0%float
        /\ capitaux_propres d = 0%float
        /\ r_ratio_endettement (ratios res) = inf
        /\ s_endettement (scores res) = 0%Z).
Proof.
  intros Hd. pose proof (recuperer_cas nom_entreprise reponses) as H.
  destruct (disponible reponses); [|congruence].
  destruct H as (sym & apercu & d' & _ & _ & He & Hr).
  assert (d' = d) by congruence. subst d'.
  pose proof (extraire_champs float_ nom_entreprise sym apercu
                (revenus_recus reponses) (bilan_recu reponses)) as Hc.
  rewrite He in Hc. simpl in Hc.
  destruct Hc as (_ & _ & _ & _ & _ & _ & _ & Hrev & Hbil & _).
  destruct (analyser_entreprise_ret d)
    as (res & Hres & Hr' & _ & _ & _ & H4 & H5 & _).
  exists res. split; [exact Hres|].
  rewrite Hr', H4, H5. cbn [r_croissance_revenus r_ratio_endettement].
  split; intros E.
  - destruct (Hrev E) as [Ha Hp]. rewrite Ha, Hp.
    change (Spec.croissance_revenus 0 0) with 0%float.
    rewrite evaluer_croissance_zero. repeat split.
  - destruct (Hbil E) as [Hdt Hcp]. rewrite Hdt, Hcp.
    change (Spec.endettement 0 0) with inf.
    rewrite evaluer_endettement_inf. repeat split.
Qed.

Lemma valeur_zero : float_ "0" = Ret 0%float -> valeur float_ "0" = 0%float.
Proof. intros H. unfold valeur, convertir_valeur. simpl. now rewrite H. Qed.

(** X15. On a text that the builtin [float] reads, [convertir_valeur]
    returns the float read, whenever [float] rejects the three texts that
    the function tests for, as Python's does; so the tests only spare the
    exception. *)
Theorem convertir_valeur_lit (valeur_str : string) (v : float) :
  (exists e, float_ "" = Raise e) ->
  (exists e, float_ "None" = Raise e) ->
  (exists e, float_ "-" = Raise e) ->
  float_ valeur_str = Ret v ->
  convertir_valeur float_ valeur_str = Ret v.
Proof.
  intros [e1 H1] [e2 H2] [e3 H3] Hv. unfold convertir_valeur.
  destruct valeur_str as [|c s]; [congruence|]. cbn [truthy negb orb].
  destruct (String.eqb_spec (String c s) "None") as [E|_]; [congruence|].
  destruct (String.eqb_spec (String c s) "-") as [E|_]; [congruence|].
  now rewrite Hv.
Qed.

(** X16. The defaults of the fetcher, for a builtin [float] that reads
    "0" as 0.0 and "100" as 100.0.  An overview without a name gives the
    name asked for; without EPS, book value or market capitalization it
    gives 0; without a sector, the tag "defaut"; and without both the moving
    average and the previous close it gives the price 100.0. *)
Theorem valeurs_par_defaut (nom_entreprise : string) (reponses : Reponses)
    (apercu : dict string) (d : DonneesEntreprise) :
  float_ "0" = Ret 0%float ->
  float_ "100" = Ret 100%float ->
  apercu_recu reponses = Some apercu ->
  recuperer_donnees_entreprise float_ nom_entreprise reponses = Some d ->
  (lookup "Name" apercu = None -> nom d = nom_entreprise)
  /\ (lookup "EPS" apercu = None -> benefice_par_action d = 0%float)
  /\ (lookup "BookValue" apercu = None ->
      valeur_comptable_par_action d = 0%float)
  /\ (lookup "MarketCapitalization" apercu = None ->
      capitalisation_boursiere d = 0%float)
  /\ (lookup "Sector" apercu = None -> secteur d = "defaut")
  /\ (lookup "50DayMovingAverage" apercu = None ->
      lookup "PreviousClose" apercu = None ->
      prix_action d = 100%float).
Proof.
  intros H0 H100 Ha Hd.
  pose proof (recuperer_cas nom_entreprise reponses) as H.
  destruct (disponible reponses); [|congruence].
  destruct H as (sym & apercu' & d' & _ & Ha' & He & Hr).
  assert (d' = d) by congruence. subst d'.
  assert (apercu' = apercu) by congruence. subst apercu'.
  pose proof (extraire_champs float_ nom_entreprise sym apercu
                (revenus_recus reponses) (bilan_recu reponses)) as Hc.
  rewrite He in Hc. simpl in Hc.
  destruct Hc as (Hn & _ & Hs & Hb & Hv & Hp & _ & _ & _ & Hk).
  rewrite Hn, Hs, Hb, Hv, Hp, Hk. unfold get.
  repeat split; intros E; rewrite ?E; try reflexivity.
  - now apply valeur_zero.
  - now apply valeur_zero.
  - now rewrite valeur_zero.
  - intros E'. rewrite E', (valeur_zero H0).
    unfold valeur, convertir_valeur. simpl. now rewrite H100.
Qed.

End Recuperation.



Lemma donnees_absentes_notees_temoin :
  exists d res,
    Recuperateur.recuperer_donnees_entreprise PyBuiltin.float_ "Acme"
      Exemples.reponses_perte = Some d
    /\ analyser_entreprise d = Ret res
    /\ s_croissance (scores res) = 20%Z
    /\ s_endettement (scores res) = 0%Z.
Proof.
  eexists.
  assert (H : Recuperateur.recuperer_donnees_entreprise PyBuiltin.float_
                "Acme" Exemples.reponses_perte = Some _)
    by (vm_compute; reflexivity).
  destruct (donnees_absentes_notees PyBuiltin.float_ "Acme"
              Exemples.reponses_perte _ H) as (res & Hres & Hrev & Hbil).
  exists res. split; [exact H|]. split; [exact Hres|].
  destruct (Hrev eq_refl) as (_ & _ & _ & H1).
  destruct (Hbil eq_refl) as (_ & _ & _ & H2).
  exact (conj H1 H2).
Defined.

(* ================================================================= *)
(** * Sector tags *)

Section Secteurs.

Import Recuperateur Lacunes.
Local Open Scope string_scope.

Lemma upper_lower_char (c : ascii) : upper_char (lower_char c) = upper_char c.
Proof. destruct c as [[] [] [] [] [] [] [] []]; reflexivity. Qed.

Lemma upper_upper_char (c : ascii) : upper_char (upper_char c) = upper_char c.
Proof. destruct c as [[] [] [] [] [] [] [] []]; reflexivity. Qed.


Lemma lower_lower_char (c : ascii) : lower_char (lower_char c) = lower_char c.
Proof. destruct c as [[] [] [] [] [] [] [] []]; reflexivity. Qed.

Lemma map_string_map_string (f g h : ascii -> ascii) (s : string) :
  (forall c, f (g c) = h c) ->
  map_string f (map_string g s) = map_string h s.
Proof.
  intros H. induction s as [|c s IH]; simpl; [reflexivity|].
  now rewrite H, IH.
Qed.

(** X8. Whatever sector the provider names, [detecter_secteur] answers
    with a key of the benchmark table, so the references that the analysis
    then reads are the entry stored under that very tag; and the answer
    does not depend on the case of the provider's text. *)
Theorem secteur_detecte_connu (secteur_api : string) :
  lookup (detecter_secteur secteur_api) references_secteur
  = Some (obtenir_references (detecter_secteur secteur_api))
  /\ detecter_secteur (lower secteur_api) = detecter_secteur secteur_api
  /\ detecter_secteur (upper secteur_api) = detecter_secteur secteur_api.
Proof.
  split; [|split].
  - unfold detecter_secteur.
    destruct (get_cas secteurs_mapping (upper secteur_api) "defaut")
      as [H|H]; [rewrite H; reflexivity|].
    simpl in H.
    repeat (destruct H as [H|H]; [rewrite <- H; reflexivity|]).
    contradiction.
  - unfold detecter_secteur, upper, lower.
    now rewrite (map_string_map_string _ _ _ _ upper_lower_char).
  - unfold detecter_secteur, upper.
    now rewrite (map_string_map_string _ _ _ _ upper_upper_char).
Qed.


Lemma obtenir_references_lower (s : string) :
  obtenir_references (lower s) = obtenir_references s.
Proof.
  unfold obtenir_references, lower.
  now rewrite (map_string_map_string _ _ _ _ lower_lower_char).
Qed.



End Secteurs.

(* ================================================================= *)
(** * Figures that are not numbers *)

Section NonNombres.

Import Lacunes.

Lemma est_nan_spec (x : float) :
  est_nan x = true <-> Prim2SF x = S754_nan.
Proof.
  unfold est_nan, feq. rewrite FloatAxioms.eqb_spec. unfold SFeqb.
  destruct (Prim2SF x) as [s|s| |s m e].
  - simpl. split; discriminate.
  - destruct s; simpl; split; discriminate.
  - simpl. split; reflexivity.
  - rewrite SFcompare_finis.
    pose proof (compare_finis_spec e m e m) as S.
    destruct (compare_finis e m e m); try lia.
    destruct s; simpl; split; discriminate.
Qed.

(** Dividing by a NaN gives a NaN. *)
Lemma quotient_par_nan (x y : float) :
  est_nan y = true -> est_nan (x / y) = true.
Proof.
  rewrite !est_nan_spec, div_spec. intros ->.
  unfold SF64div, SFdiv. destruct (Prim2SF x); reflexivity.
Qed.

(** A NaN takes the last band of every ladder. *)
Lemma grilles_nan (x : float) (refs : References) :
  est_nan x = true ->
  fst (evaluer_ratio_pe x refs) = 10%Z
  /\ fst (evaluer_ratio_pb x refs) = 25%Z
  /\ fst (evaluer_ratio_peg x) = 10%Z
  /\ fst (evaluer_croissance x refs) = 20%Z
  /\ fst (evaluer_endettement x) = 20%Z.
Proof.
  intros H.
  assert (Hlt : forall t, flt x t = false)
    by (intros t; apply (nan_incomparable x t H)).
  assert (Hgt : forall t, fgt x t = false)
    by (intros t; apply (nan_incomparable x t H)).
  assert (Heq : feq x inf = false) by apply (nan_incomparable x inf H).
  unfold evaluer_ratio_pe, evaluer_ratio_pb, evaluer_ratio_peg,
    evaluer_croissance, evaluer_endettement.
  now rewrite Heq, !Hlt, !Hgt.
Qed.

(** X10. The guards [<= 0] and the tests [== float('inf')] do not catch a
    NaN.  When the EPS of a record is a NaN, as [float("nan")] is for the
    provider's text, the P/E is computed, is a NaN and scores 10, the band
    of a very high P/E, not the 0 of an undefined one; and a NaN takes the
    last band of every ladder: 25 for P/B, 10 for PEG, 20 for growth and for
    leverage. *)
Theorem nan_non_detecte (d : DonneesEntreprise) (x : float)
    (refs : References) :
  (est_nan (benefice_par_action d) = true ->
   exists res,
     analyser_entreprise d = Ret res
     /\ est_nan (r_pe (ratios res)) = true
     /\ s_pe (scores res) = 10%Z)
  /\ (est_nan x = true ->
      fst (evaluer_ratio_pe x refs) = 10%Z
      /\ fst (evaluer_ratio_pb x refs) = 25%Z
      /\ fst (evaluer_ratio_peg x) = 10%Z
      /\ fst (evaluer_croissance x refs) = 20%Z
      /\ fst (evaluer_endettement x) = 20%Z).
Proof.
  split; [|apply grilles_nan].
  intros H.
  destruct (analyser_entreprise_ret d)
    as (res & Hres & Hr & H1 & _).
  exists res. split; [exact Hres|]. rewrite H1, Hr. cbn [r_pe].
  assert (Hpe : est_nan (Spec.pe (prix_action d) (benefice_par_action d))
                = true).
  { unfold Spec.pe.
    replace (fle (benefice_par_action d) 0) with false
      by (symmetry; apply (nan_incomparable _ 0%float H)).
    now apply quotient_par_nan. }
  split; [exact Hpe|]. now apply grilles_nan.
Qed.

Lemma nan_non_detecte_temoin :
  fst (evaluer_ratio_pe nan references_defaut) = 10%Z
  /\ fst (evaluer_endettement nan) = 20%Z.
Proof.
  destruct (nan_non_detecte Exemples.sans_benefices nan references_defaut)
    as (_ & H).
  destruct (H eq_refl) as (H1 & _ & _ & _ & H5).
  exact (conj H1 H5).
Defined.

End NonNombres.

(* ================================================================= *)
(** * What the analysis does not read *)

Section Independance.

Import Lacunes.

(** X11. The analysis reads neither the name, nor the ticker, nor the
    market capitalization: changing them changes no ratio, no score, no
    explanation and not the verdict. *)
Theorem analyse_ignore_nom_et_capitalisation (d : DonneesEntreprise)
    (nom' symbole' : string) (capitalisation' : float) :
  exists res res',
    analyser_entreprise d = Ret res
    /\ analyser_entreprise (renommer d nom' symbole' capitalisation')
       = Ret res'
    /\ ratios res' = ratios res
    /\ scores res' = scores res
    /\ explications res' = explications res
    /\ conclusion res' = conclusion res
    /\ recommandation res' = recommandation res.
Proof.
  unfold analyser_entreprise.
  rewrite !calculer_ratio_pe_ret, !calculer_ratio_pb_ret,
    !calculer_ratio_peg_ret, !calculer_croissance_revenus_ret,
    !calculer_ratio_endettement_ret.
  simpl bind. cbn [renommer prix_action benefice_par_action
    valeur_comptable_par_action revenus_actuels revenus_annee_precedente
    dette_totale capitaux_propres croissance_benefices_prevue secteur].
  destruct (evaluer_ratio_pe _ _) as [s1 x1].
  destruct (evaluer_ratio_pb _ _) as [s2 x2].
  destruct (evaluer_ratio_peg _) as [s3 x3].
  destruct (evaluer_croissance _ _) as [s4 x4].
  destruct (evaluer_endettement _) as [s5 x5].
  do 2 eexists. repeat split.
Qed.

(** X12. A company with no earnings, no book value, no prior revenue and
    no equity, as one about which the provider knows nothing, always gets
    the scores 0, 25, 20, 20 and 0, the final score 14.0, the lowest there
    is, and the verdict "overvalued", whatever its price and sector. *)
Theorem sans_donnees_surevaluee (d : DonneesEntreprise) :
  fle (benefice_par_action d) 0 = true ->
  fle (valeur_comptable_par_action d) 0 = true ->
  fle (revenus_annee_precedente d) 0 = true ->
  fle (capitaux_propres d) 0 = true ->
  exists res,
    analyser_entreprise d = Ret res
    /\ s_pe (scores res) = 0%Z
    /\ s_pb (scores res) = 25%Z
    /\ s_peg (scores res) = 20%Z
    /\ s_croissance (scores res) = 20%Z
    /\ s_endettement (scores res) = 0%Z
    /\ s_final (scores res) = 14%float
    /\ conclusion res = SUREVALUEE.
Proof.
  intros He Hb Hp Hc.
  destruct (analyser_entreprise_ret d)
    as (res & Hres & _ & H1 & H2 & H3 & H4 & H5 & _ & Hf & Hv).
  exists res. split; [exact Hres|].
  rewrite Hv, Hf, H1, H2, H3, H4, H5.
  unfold Spec.pe, Spec.pb, Spec.croissance_revenus, Spec.endettement.
  rewrite He, Hb, Hp, Hc. change Spec.indefini with inf.
  rewrite spec_peg_inf, evaluer_ratio_pe_inf, evaluer_ratio_pb_inf,
    evaluer_ratio_peg_inf, evaluer_croissance_zero, evaluer_endettement_inf.
  repeat split.
Qed.

Lemma sans_donnees_surevaluee_temoin :
  exists res,
    analyser_entreprise Exemples.sans_benefices = Ret res
    /\ s_final (scores res) = 14%float
    /\ conclusion res = SUREVALUEE.
Proof.
  destruct (sans_donnees_surevaluee Exemples.sans_benefices
              eq_refl eq_refl eq_refl eq_refl)
    as (res & H & _ & _ & _ & _ & _ & Hf & Hv).
  exists res. exact (conj H (conj Hf Hv)).
Defined.

End Independance.

(* ================================================================= *)
(** * The manual entry and the API key *)

Section SaisieManuelle.

Import Saisie Lacunes Parcours.
Local Open Scope string_scope.

Variable float_ : string -> exc float.

Ltac lire :=
  repeat match goal with
         | |- context [float_ ?l] => destruct (float_ l); cbv beta iota
         end.

(** The manual entry, by cases on what was typed. *)
Lemma saisir_cas (lignes : list string) :
  if saisie_valide float_ lignes
  then exists d,
      saisir_donnees_entreprise float_ lignes = Ret (d, skipn 12 lignes)
      /\ nom d = nth 0 lignes ""
      /\ symbole d = nth 1 lignes ""
      /\ float_ (nth 2 lignes "") = Ret (prix_action d)
      /\ float_ (nth 3 lignes "") = Ret (benefice_par_action d)
      /\ float_ (nth 4 lignes "") = Ret (valeur_comptable_par_action d)
      /\ float_ (nth 5 lignes "") = Ret (revenus_actuels d)
      /\ float_ (nth 6 lignes "") = Ret (revenus_annee_precedente d)
      /\ float_ (nth 7 lignes "") = Ret (dette_totale d)
      /\ float_ (nth 8 lignes "") = Ret (capitaux_propres d)
      /\ float_ (nth 9 lignes "") = Ret (croissance_benefices_prevue d)
      /\ float_ (nth 10 lignes "") = Ret (capitalisation_boursiere d)
      /\ secteur d = lower (nth 11 lignes "")
  else exists e, saisir_donnees_entreprise float_ lignes = Raise e.
Proof.
  destruct lignes as [|l0 [|l1 [|l2 [|l3 [|l4 [|l5 [|l6 [|l7 [|l8 [|l9
    [|l10 [|l11 r]]]]]]]]]]]];
    unfold saisie_valide, analysable;
    cbn [length Nat.leb firstn skipn forallb andb nth];
    cbv [saisir_donnees_entreprise puis float_input input lever ret];
    lire; cbn [andb];
    try (eexists; reflexivity).
  eexists. repeat split.
Qed.

(** X13. The manual entry succeeds exactly when at least twelve lines are
    typed and the nine numeric ones are numbers for [float]; otherwise it
    raises.  When it succeeds it has consumed exactly twelve lines, copied
    the name, the ticker and the nine numbers in the order asked, and
    lower-cased the sector, so that the benchmark used is that of the sector
    as typed, whatever its case. *)
Theorem saisie_reussit (lignes : list string) :
  (saisie_valide float_ lignes = true
   <-> exists d reste,
       saisir_donnees_entreprise float_ lignes = Ret (d, reste))
  /\ (saisie_valide float_ lignes = false
      <-> exists e, saisir_donnees_entreprise float_ lignes = Raise e)
  /\ (forall d reste,
         saisir_donnees_entreprise float_ lignes = Ret (d, reste) ->
         reste = skipn 12 lignes
         /\ nom d = nth 0 lignes ""
         /\ symbole d = nth 1 lignes ""
         /\ float_ (nth 2 lignes "") = Ret (prix_action d)
         /\ float_ (nth 3 lignes "") = Ret (benefice_par_action d)
         /\ float_ (nth 4 lignes "")
            = Ret (valeur_comptable_par_action d)
         /\ float_ (nth 5 lignes "") = Ret (revenus_actuels d)
         /\ float_ (nth 6 lignes "") = Ret (revenus_annee_precedente d)
         /\ float_ (nth 7 lignes "") = Ret (dette_totale d)
         /\ float_ (nth 8 lignes "") = Ret (capitaux_propres d)
         /\ float_ (nth 9 lignes "")
            = Ret (croissance_benefices_prevue d)
         /\ float_ (nth 10 lignes "") = Ret (capitalisation_boursiere d)
         /\ secteur d = lower (nth 11 lignes "")
         /\ obtenir_references (secteur d)
            = obtenir_references (nth 11 lignes "")).
Proof.
  pose proof (saisir_cas lignes) as H.
  destruct (saisie_valide float_ lignes).
  - destruct H as (d & Hd & Hf). split; [|split].
    + split; [intros _; now exists d, (skipn 12 lignes) | reflexivity].
    + split; [discriminate | intros [e He]; congruence].
    + intros d' reste E. rewrite Hd in E. injection E as <- <-.
      split; [reflexivity|].
      assert (Hs : secteur d = lower (nth 11 lignes "")) by tauto.
      rewrite Hs at 2. rewrite obtenir_references_lower. tauto.
  - destruct H as (e & He). split; [|split].
    + split; [discriminate | intros (d & reste & E); congruence].
    + split; [intros _; now exists e | reflexivity].
    + intros d reste E. congruence.
Qed.

Lemma lstrip_blanche (l : list ascii) :
  forallb PyBuiltin.is_space l = true -> PyBuiltin.lstrip l = [].
Proof.
  induction l as [|c l IH]; simpl; [reflexivity|].
  destruct (PyBuiltin.is_space c); simpl; [exact IH | discriminate].
Qed.

Lemma strip_blanche (ligne : string) :
  blanche ligne = true -> strip ligne = "".
Proof.
  unfold blanche, strip, PyBuiltin.strip. intros H.
  now rewrite (lstrip_blanche _ H).
Qed.

(** X14. [configurer_api_key] never returns an empty key: it reads one
    line, and a line that is empty or made of white space only gives
    ["demo"]; with no line left it raises [EOFError]. *)
Theorem cle_api_jamais_vide (ligne : string) (reste : list string) :
  configurer_api_key [] = Raise EOFError
  /\ exists cle,
      configurer_api_key (ligne :: reste) = Ret (cle, reste)
      /\ truthy cle = true
      /\ (blanche ligne = true -> cle = "demo")
      /\ (cle = strip ligne \/ cle = "demo").
Proof.
  split; [reflexivity|].
  unfold configurer_api_key, puis, input, ret. cbv zeta.
  destruct (truthy (strip ligne)) eqn:E; simpl.
  - exists (strip ligne). repeat split; [exact E| |now left].
    intros Hb. rewrite (strip_blanche _ Hb) in E. discriminate.
  - exists "demo". repeat split. now right.
Qed.

End SaisieManuelle.

Lemma saisie_reussit_temoin :
  exists d,
    Saisie.saisir_donnees_entreprise PyBuiltin.float_ Exemples.lignes_saines
    = Ret (d, [])
    /\ secteur d = "energie"%string
    /\ obtenir_references (secteur d) = obtenir_references "Energie".
Proof.
  eexists.
  assert (H : Saisie.saisir_donnees_entreprise PyBuiltin.float_
                Exemples.lignes_saines = Ret (_, []))
    by (vm_compute; reflexivity).
  split; [exact H|].
  destruct (saisie_reussit PyBuiltin.float_ Exemples.lignes_saines)
    as (_ & _ & Hc).
  destruct (Hc _ _ H)
    as (_ & _ & _ & _ & _ & _ & _ & _ & _ & _ & _ & _ & Hs & Hr).
  exact (conj Hs Hr).
Defined.

Lemma cle_api_jamais_vide_temoin :
  Parcours.configurer_api_key ["   "%string; "6"%string]
  = Ret ("demo"%string, ["6"%string]).
Proof.
  destruct (cle_api_jamais_vide "   " ["6"%string])
    as (_ & cle & H & _ & Hb & _).
  rewrite H. now rewrite (Hb eq_refl).
Defined.

Lemma convertir_valeur_lit_temoin :
  Recuperateur.convertir_valeur PyBuiltin.float_ "-1.5e3"
  = Ret (-1500)%float.
Proof.
  apply convertir_valeur_lit.
  - exists ValueError. reflexivity.
  - exists ValueError. reflexivity.
  - exists ValueError. reflexivity.
  - reflexivity.
Defined.

Lemma valeurs_par_defaut_temoin :
  exists d,
    Recuperateur.recuperer_donnees_entreprise PyBuiltin.float_ "Nue SA"
      Lacunes.reponses_nues = Some d
    /\ nom d = "Nue SA"%string
    /\ benefice_par_action d = 0%float
    /\ secteur d = "defaut"%string
    /\ prix_action d = 100%float.
Proof.
  eexists.
  assert (H : Recuperateur.recuperer_donnees_entreprise PyBuiltin.float_
                "Nue SA" Lacunes.reponses_nues = Some _)
    by (vm_compute; reflexivity).
  split; [exact H|].
  destruct (valeurs_par_defaut PyBuiltin.float_ "Nue SA"
              Lacunes.reponses_nues _ _ eq_refl eq_refl eq_refl H)
    as (H1 & H2 & _ & _ & H5 & H6).
  exact (conj (H1 eq_refl) (conj (H2 eq_refl)
          (conj (H5 eq_refl) (H6 eq_refl eq_refl)))).
Defined.

(* ================================================================= *)
(** * The symbol search *)

Section Recherche.

Import Appels.
Local Open Scope string_scope.

(** X17. Every failure of the request or of a decoding step makes
    [rechercher_symbole] return [None].  It returns a symbol exactly
    when the decoded answer is an object whose "bestMatches" is an array
    that starts with an object holding both "1. symbol" and "2. name", and
    the symbol returned is the value under "1. symbol".  A first match
    without "2. name", which is only printed, makes the search fail. *)
Theorem recherche_du_symbole (reponse : essai json) (sym : json) :
  rechercher_symbole reponse = Some sym
  <-> exists d m reste nom_complet,
      reponse = Valeur (JDict d)
      /\ lookup "bestMatches" d = Some (JList (JDict m :: reste))
      /\ lookup "1. symbol" m = Some sym
      /\ lookup "2. name" m = Some nom_complet.
Proof.
  split.
  - unfold rechercher_symbole.
    destruct reponse as [data|e]; [|discriminate].
    destruct data as [|b|t|s|l|d]; cbn [et_puis ou_rien dans];
      try discriminate.
    + destruct (String.index 0 "bestMatches" s); cbn; discriminate.
    + destruct (existsb _ l); cbn; discriminate.
    + destruct (lookup "bestMatches" d) as [matches|] eqn:Em;
        cbn [et_puis ou_rien a_la_cle]; [|discriminate].
      rewrite Em. cbn [et_puis].
      destruct matches as [|b|t|s|l|d']; cbn [longueur et_puis ou_rien];
        try discriminate.
      * destruct s as [|c s]; cbn; discriminate.
      * destruct l as [|match_ reste]; cbn [List.length Nat.ltb Nat.leb
          et_puis ou_rien premier]; [discriminate|].
        destruct match_ as [|b|t|s|l'|m]; cbn [a_la_cle et_puis ou_rien];
          try discriminate.
        destruct (lookup "1. symbol" m) as [symbole|] eqn:Es;
          cbn [et_puis ou_rien]; [|discriminate].
        destruct (lookup "2. name" m) as [nom_complet|] eqn:En;
          cbn [et_puis ou_rien]; [|discriminate].
        intros E. injection E as <-.
        now exists d, m, reste, nom_complet.
      * destruct d' as [|x d']; cbn; discriminate.
  - intros (d & m & reste & nom_complet & -> & Hm & Hs & Hn).
    unfold rechercher_symbole. cbn [et_puis dans]. rewrite Hm.
    cbn [et_puis a_la_cle]. rewrite Hm.
    cbn [et_puis longueur List.length Nat.ltb Nat.leb premier a_la_cle].
    now rewrite Hs, Hn.
Qed.

End Recherche.

Lemma recherche_du_symbole_temoin :
  Appels.rechercher_symbole
    (Appels.Valeur
       (Appels.JDict
          [("bestMatches"%string,
            Appels.JList
              [Appels.JDict [("1. symbol"%string, Appels.JStr "AAPL");
                             ("2. name"%string, Appels.JStr "Apple Inc")]])]))
  = Some (Appels.JStr "AAPL").
Proof.
  apply recherche_du_symbole.
  do 4 eexists. repeat split.
Defined.
